(** * margaritashotgun: the lime-compiler repository client

    A shallow embedding of [margaritashotgun/repository.py] (class
    [Repository]) and the properties of its metadata walk
    (repomd.xml -> manifest -> kernel module) and of its checksum
    verification.

    The program is Python 2: [str] is a byte string, so payloads, URLs and
    file names are all modelled as [string].  The libraries it calls
    (hashlib, gzip, untangle, requests, time, datetime) and the working
    directory in which it opens its file are collected in the class
    [Platform].  The effects of the program (HTTP requests, log
    records, file writes, output on stdout, the calls of the decoder and of
    the XML parser) are threaded through an explicit state that survives a
    raised exception, as the effects of a Python program do.

    The file has four parts: the client (section [Client]), a concrete
    platform with the repositories of a few scenarios (modules [SHA256] and
    [Scenario]), the properties of the client on any platform (section
    [Properties]), and the scenarios run on the concrete platform. *)

From Stdlib Require Import ZArith String Ascii List Bool Lia.
From stdpp Require Import gmap strings list pretty.
Import ListNotations.
Local Open Scope string_scope.
Local Open Scope list_scope.

(** ** Python built-ins *)

Module Py.

(** [c in chars] for a one-character string [c]. *)
Fixpoint mem_char (c : ascii) (chars : string) : bool :=
  match chars with
  | EmptyString => false
  | String d chars' => Ascii.eqb c d || mem_char c chars'
  end.

(** [s.rstrip(chars)]: the longest prefix of [s] whose last character is
    not in the set [chars].  [chars] is a set of characters, not a suffix. *)
Fixpoint rstrip (s chars : string) : string :=
  match s with
  | EmptyString => EmptyString
  | String c s' =>
      match rstrip s' chars with
      | EmptyString => if mem_char c chars then EmptyString else String c EmptyString
      | r => String c r
      end
  end.

(** [s.endswith(suffix)]. *)
Definition endswith (s suffix : string) : bool :=
  let n := String.length s in
  let k := String.length suffix in
  (k <=? n)%nat && String.eqb (String.substring (n - k) k s) suffix.

(** ["{0}".format(x)] for [x] a string or [None]. *)
Definition format_arg (x : option string) : string :=
  match x with
  | Some s => s
  | None => "None"
  end.

End Py.

(** ** Exceptions

    [RepositoryError] and [KernelModuleNotFoundError] come from
    [margaritashotgun.exceptions] (star-imported by the source, the module
    itself is not among the sources): their arguments are those of the call
    sites.  [reason] is the second argument of [RepositoryError], which the
    source gives either a message or the exception it caught.  The other
    constructors are Python's own exceptions as they arise on the paths
    modelled here; [Exception] stands for any other class a library call
    raises. *)

Inductive exn :=
| RepositoryError (url : string) (why : reason)
| KernelModuleNotFoundError (kernel_version url : string)
| KeyError (key : string)
| UnboundLocalError (name : string)
| AttributeError (msg : string)
| TypeError (msg : string)
| ValueError (msg : string)
| IOError (msg : string)
| Exception (cls msg : string)
with reason :=
| Message (msg : string)
| Cause (e : exn).

(** The classes defined by the program's own exceptions module, as against
    the exceptions of the interpreter and of the libraries. *)
Definition is_project_error (e : exn) : bool :=
  match e with
  | RepositoryError _ _ | KernelModuleNotFoundError _ _ => true
  | _ => false
  end.

(** The value of an expression that may raise. *)
Inductive result (A : Type) :=
| Ok (a : A)
| Err (e : exn).
Arguments Ok {A} a.
Arguments Err {A} e.

Definition rbind {A B} (r : result A) (k : A -> result B) : result B :=
  match r with
  | Ok a => k a
  | Err e => Err e
  end.

(** ** The libraries and the environment *)

(** What untangle's attribute access [element.child] evaluates to: the child
    element when exactly one child has that name, the list of them when
    several have. *)
Inductive node (E : Type) :=
| One (e : E)
| Several (l : list E).
Arguments One {E} e.
Arguments Several {E} l.

(** A response of [requests.get]: [content] is the decoded body,
    [raw] what [req.raw.read()] returns of a streamed response. *)
Record response := {
  status_code : Z;
  content : string;
  raw : string
}.

(** A [datetime] object, as [datetime.fromtimestamp] builds it: the POSIX
    timestamp it stands for. *)
Inductive datetime :=
| Datetime (timestamp : Z).

Class Platform := {
  (** hashlib: [hashlib.sha256(data).hexdigest()]. *)
  sha256_hexdigest : string -> string;
  (** gzip: [gzip.GzipFile(fileobj=StringIO(raw)).read()]. *)
  gzip_read : string -> result string;
  (** untangle: the parsed document and the accessors of its elements:
      [parse(xml)], [element.key], [element[key]] ([None] for an attribute
      the element does not carry), [element.cdata], [element.children]. *)
  Element : Type;
  untangle_parse : string -> result Element;
  getattr : Element -> string -> result (node Element);
  get_attribute : Element -> string -> option string;
  cdata : Element -> string;
  children : Element -> list Element;
  (** built-ins and datetime: [int(s)], [datetime.fromtimestamp(n)],
      [datetime.utcfromtimestamp(n).isoformat()]. *)
  int : string -> result Z;
  fromtimestamp : Z -> result datetime;
  utc_isoformat : Z -> string;
  (** the environment: the response to [requests.get(url)],
      [int(time.time())], and what [open(filename, 'wb')] does in the
      working directory: it opens the file, or raises [IOError] with a
      message (a name with a directory that is not there, a directory that
      cannot be written). *)
  requests_get : string -> response;
  time_time : Z;
  open_error : string -> option string
}.

Section Client.

Context {P : Platform}.

(** Attribute access, subscript and [.cdata] / [.children] on what an
    attribute access returned: a list has none of them. *)
Definition dot (n : node Element) (key : string) : result (node Element) :=
  match n with
  | One e => getattr e key
  | Several _ => Err (AttributeError ("'list' object has no attribute '" +:+ key +:+ "'"))
  end.

Definition dot_cdata (n : node Element) : result string :=
  match n with
  | One e => Ok (cdata e)
  | Several _ => Err (AttributeError "'list' object has no attribute 'cdata'")
  end.

Definition dot_children (n : node Element) : result (list Element) :=
  match n with
  | One e => Ok (children e)
  | Several _ => Err (AttributeError "'list' object has no attribute 'children'")
  end.

Definition subscript (n : node Element) (key : string) : result (option string) :=
  match n with
  | One e => Ok (get_attribute e key)
  | Several _ => Err (TypeError "list indices must be integers, not str")
  end.

(** ** Data *)

(** [manifest_dict] of [parse_metadata]: one [data] element of repomd.xml. *)
Record manifest_dict := {
  manifest_type : option string;
  manifest_checksum : string;
  manifest_open_checksum : string;
  manifest_location : option string;
  manifest_timestamp : datetime;
  manifest_size : Z;
  manifest_open_size : Z
}.

(** [metadata] of [parse_metadata]. *)
Record metadata := {
  revision : string;
  manifests : gmap (option string) manifest_dict
}.

(** [mod] of [parse_manifest]: one kernel module of a manifest. *)
Record kernel_module := {
  module_type : option string;
  module_name : string;
  module_arch : string;
  module_checksum : string;
  module_version : string;
  module_packager : string;
  module_location : option string;
  module_signature : option string;
  module_platform : string
}.

(** ** Effects *)

Inductive level := DEBUG | INFO.

(** The log records of the source, by their format string. *)
Inductive logmsg :=
| ParsedMetadata (m : metadata)
| FoundModule (m : kernel_module)
| CalculatedChecksum (calculated_checksum : string) (filename : option string)
| Downloading (url filename : string).

Inductive event :=
| Get (url : string)
| Log (lvl : level) (msg : logmsg)
| Gunzip (data : string)
| Parse (xml : string)
| Stdout (e : exn)
| Write (filename data : string)
| Read (filename : string).

(** The files of the working directory and what happened so far, oldest
    first. *)
Record state := {
  fs : gmap string string;
  trace : list event
}.

Definition M (A : Type) : Type := state -> result A * state.

Definition ret {A} (a : A) : M A := fun s => (Ok a, s).

Definition raise {A} (e : exn) : M A := fun s => (Err e, s).

Definition bind {A B} (m : M A) (k : A -> M B) : M B :=
  fun s =>
    match m s with
    | (Ok a, s') => k a s'
    | (Err e, s') => (Err e, s')
    end.

Definition lift {A} (r : result A) : M A := fun s => (r, s).

Definition emit (ev : event) : M unit :=
  fun s => (Ok tt, {| fs := fs s; trace := trace s ++ [ev] |}).

(** [with open(filename, 'wb') as f: f.write(data)]: when [open] raises,
    nothing is written. *)
Definition write_file (filename data : string) : M unit :=
  fun s =>
    match open_error filename with
    | Some message => (Err (IOError message), s)
    | None => (Ok tt, {| fs := <[filename := data]> (fs s);
                         trace := trace s ++ [Write filename data] |})
    end.

Definition read_file (filename : string) : M string :=
  fun s =>
    let s' := {| fs := fs s; trace := trace s ++ [Read filename] |} in
    match fs s !! filename with
    | Some data => (Ok data, s')
    | None => (Err (IOError ("No such file or directory: '" +:+ filename +:+ "'")), s')
    end.

(** [requests.get(url)] where the request is answered.  The exceptions of
    the transport itself (a URL without a scheme, a connection that cannot
    be made), which no method of the class catches, are not modelled:
    what is proved of a call is proved of the executions in which its
    requests are answered. *)
Definition http_get (url : string) : M response :=
  fun s => (Ok (requests_get url),
            {| fs := fs s; trace := trace s ++ [Get url] |}).

Notation "x <- m ;; k" := (bind m (fun x => k))
  (at level 100, m at next level, right associativity).
Notation "m ;;; k" := (bind m (fun _ => k))
  (at level 100, right associativity).
Notation "x <-? r ;; k" := (rbind r (fun x => k))
  (at level 100, r at next level, right associativity).

(** ** class Repository *)

Record Repository := {
  url : string;
  gpg_verify : bool;
  metadata_dir : string;
  metadata_file : string
}.

(** [Repository.__init__]. *)
Definition init (url : string) (gpg_verify : bool) : Repository :=
  {| url := Py.rstrip url "/";
     gpg_verify := gpg_verify;
     metadata_dir := "repodata";
     metadata_file := "repomd.xml" |}.

(** [Repository.verify_signature]. *)
Definition verify_signature (self : Repository) : bool := true.

(** [Repository.verify_checksum]. *)
Definition verify_checksum (self : Repository) (data checksum : string)
    (filename : option string) : M unit :=
  let calculated_checksum := sha256_hexdigest data in
  emit (Log DEBUG (CalculatedChecksum calculated_checksum filename)) ;;;
  if negb (String.eqb calculated_checksum checksum) then
    raise (RepositoryError
             (url self +:+ "/" +:+ Py.format_arg filename)
             (Message ("checksum verification failed, expected " +:+ checksum
                       +:+ " got " +:+ calculated_checksum)))
  else ret tt.

(** [Repository.verify_module]. *)
Definition verify_module (self : Repository) (filename : string)
    (module : kernel_module) (verify_signature : bool) : M unit :=
  module_data <- read_file filename ;;
  verify_checksum self module_data (module_checksum module) (module_location module).

(** [Repository.fetch_module]. *)
Definition fetch_module (self : Repository) (module : kernel_module) : M string :=
  let tm := time_time in
  let datestamp := utc_isoformat tm in
  let filename := "lime-" +:+ datestamp +:+ "-" +:+ module_version module +:+ ".ko" in
  let url := url self +:+ "/" +:+ Py.format_arg (module_location module) in
  emit (Log INFO (Downloading url filename)) ;;;
  req <- http_get url ;;
  write_file filename (raw req) ;;;
  verify_module self filename module (gpg_verify self) ;;;
  ret filename.

(** The body of the loop of [parse_manifest]: the [mod] dictionary of one
    child of [modules]; the fields are read in the order of the source. *)
Definition module_of_element (module : Element) : result kernel_module :=
  let type := get_attribute module "type" in
  name <-? rbind (getattr module "name") dot_cdata ;;
  arch <-? rbind (getattr module "arch") dot_cdata ;;
  checksum <-? rbind (getattr module "checksum") dot_cdata ;;
  version <-? rbind (getattr module "version") dot_cdata ;;
  packager <-? rbind (getattr module "packager") dot_cdata ;;
  location <-? rbind (getattr module "location") (fun n => subscript n "href") ;;
  signature <-? rbind (getattr module "signature") (fun n => subscript n "href") ;;
  platform <-? rbind (getattr module "platform") dot_cdata ;;
  Ok {| module_type := type;
        module_name := name;
        module_arch := arch;
        module_checksum := checksum;
        module_version := version;
        module_packager := packager;
        module_location := location;
        module_signature := signature;
        module_platform := platform |}.

(** The loop of [parse_manifest] over [mdata.children]: [manifest] is the
    dictionary filled so far.  The loop stops at the first child that
    raises, and the entries stored before it stay in the dictionary. *)
Fixpoint parse_modules (l : list Element) (manifest : gmap string kernel_module)
    : gmap string kernel_module * option exn :=
  match l with
  | [] => (manifest, None)
  | module :: l' =>
      match module_of_element module with
      | Ok mod' => parse_modules l' (<[module_version mod' := mod']> manifest)
      | Err e => (manifest, Some e)
      end
  end.

(** The [try] block of [parse_manifest], with the dictionary it leaves and
    the exception it was left by, if any. *)
Definition parse_manifest_try (manifest_xml : string)
    : gmap string kernel_module * option exn :=
  match
    (root <-? untangle_parse manifest_xml ;;
     mdata <-? getattr root "modules" ;;
     dot_children mdata)
  with
  | Ok l => parse_modules l ∅
  | Err e => (∅, Some e)
  end.

(** [Repository.parse_manifest]: [except Exception as e: print(e)]. *)
Definition parse_manifest (self : Repository) (manifest_xml : string)
    : M (gmap string kernel_module) :=
  emit (Parse manifest_xml) ;;;
  let '(manifest, e) := parse_manifest_try manifest_xml in
  match e with
  | Some e => emit (Stdout e)
  | None => ret tt
  end ;;;
  ret manifest.

(** [Repository.unzip_manifest]. *)
Definition unzip_manifest (self : Repository) (raw_manifest : string) : M string :=
  emit (Gunzip raw_manifest) ;;;
  lift (gzip_read raw_manifest).

(** [metadata['location'].rstrip('.gz')]: [None] has no [rstrip]. *)
Definition location_rstrip (location : option string) : result (option string) :=
  match location with
  | Some l => Ok (Some (Py.rstrip l ".gz"))
  | None => Err (AttributeError "'NoneType' object has no attribute 'rstrip'")
  end.

(** [Repository.get_manifest].  [gz_manifest] is bound only under
    [if req.status_code is 200]; reading it unbound raises. *)
Definition get_manifest (self : Repository) (metadata : manifest_dict)
    : M (gmap string kernel_module) :=
  let manifest_path := url self +:+ "/" +:+ Py.format_arg (manifest_location metadata) in
  req <- http_get manifest_path ;;
  let gz_manifest := if (status_code req =? 200)%Z then Some (raw req) else None in
  gz_manifest <- match gz_manifest with
                 | Some v => ret v
                 | None => raise (UnboundLocalError "gz_manifest")
                 end ;;
  verify_checksum self gz_manifest (manifest_checksum metadata)
                  (manifest_location metadata) ;;;
  manifest <- unzip_manifest self gz_manifest ;;
  label <- lift (location_rstrip (manifest_location metadata)) ;;
  verify_checksum self manifest (manifest_open_checksum metadata) label ;;;
  parse_manifest self manifest.

(** The body of the loop of [parse_metadata]: the [manifest_dict] of one
    [data] element. *)
Definition manifest_of_element (manifest : Element) : result manifest_dict :=
  let type := get_attribute manifest "type" in
  checksum <-? rbind (getattr manifest "checksum") dot_cdata ;;
  open_checksum <-? rbind (getattr manifest "open_checksum") dot_cdata ;;
  location <-? rbind (getattr manifest "location") (fun n => subscript n "href") ;;
  timestamp <-? rbind (rbind (rbind (getattr manifest "timestamp") dot_cdata) int)
                      fromtimestamp ;;
  size <-? rbind (rbind (getattr manifest "size") dot_cdata) int ;;
  open_size <-? rbind (rbind (getattr manifest "open_size") dot_cdata) int ;;
  Ok {| manifest_type := type;
        manifest_checksum := checksum;
        manifest_open_checksum := open_checksum;
        manifest_location := location;
        manifest_timestamp := timestamp;
        manifest_size := size;
        manifest_open_size := open_size |}.

(** The loop of [parse_metadata] over [manifests]; [acc] is
    [metadata['manifests']] so far. *)
Fixpoint parse_data (l : list Element) (acc : gmap (option string) manifest_dict)
    : result (gmap (option string) manifest_dict) :=
  match l with
  | [] => Ok acc
  | manifest :: l' =>
      manifest_dict <-? manifest_of_element manifest ;;
      parse_data l' (<[get_attribute manifest "type" := manifest_dict]> acc)
  end.

(** [if type(mdata.data) is list: manifests = mdata.data
     else: manifests = [mdata.data]]. *)
Definition manifests_of (data : node Element) : list Element :=
  match data with
  | Several l => l
  | One e => [e]
  end.

(** The [try] block of [parse_metadata], from [mdata] on. *)
Definition parse_mdata (mdata : node Element) : result metadata :=
  revision <-? rbind (dot mdata "revision") dot_cdata ;;
  data <-? dot mdata "data" ;;
  manifests <-? parse_data (manifests_of data) ∅ ;;
  Ok {| revision := revision; manifests := manifests |}.

(** The [try] block of [parse_metadata]. *)
Definition parse_metadata_try (metadata_xml : string) : result metadata :=
  root <-? untangle_parse metadata_xml ;;
  mdata <-? getattr root "metadata" ;;
  parse_mdata mdata.

(** [Repository.parse_metadata].  The format string of the [except] branch
    has two fields for three arguments: the file name is left out. *)
Definition parse_metadata (self : Repository) (metadata_xml : string) : M metadata :=
  emit (Parse metadata_xml) ;;;
  match parse_metadata_try metadata_xml with
  | Ok metadata => ret metadata
  | Err e => raise (RepositoryError (url self +:+ "/" +:+ metadata_dir self) (Cause e))
  end.

(** ["status code not 200: {}".format(req.status_code)]. *)
Definition status_not_200 (status_code : Z) : reason :=
  Message ("status code not 200: " +:+ pretty status_code).

(** [Repository.get_metadata]. *)
Definition get_metadata (self : Repository) : M metadata :=
  let metadata_path :=
    url self +:+ "/" +:+ metadata_dir self +:+ "/" +:+ metadata_file self in
  let metadata_sig_path :=
    Py.rstrip (url self) "/" +:+ "/" +:+ metadata_dir self +:+ "/"
      +:+ metadata_file self +:+ ".sig" in
  req <- http_get metadata_path ;;
  raw_metadata <- (if (status_code req =? 200)%Z then ret (content req)
                   else raise (RepositoryError metadata_path
                                 (status_not_200 (status_code req)))) ;;
  (if gpg_verify self then
     req <- http_get metadata_sig_path ;;
     if (status_code req =? 200)%Z then ret tt
     else raise (RepositoryError metadata_sig_path
                   (status_not_200 (status_code req)))
   else ret tt) ;;;
  parse_metadata self raw_metadata.

(** [Repository.fetch]. *)
Definition fetch (self : Repository) (kernel_version manifest_type : string)
    : M string :=
  metadata <- get_metadata self ;;
  emit (Log DEBUG (ParsedMetadata metadata)) ;;;
  descriptor <- match manifests metadata !! Some manifest_type with
                | Some d => ret d
                | None => raise (KeyError manifest_type)
                end ;;
  manifest <- get_manifest self descriptor ;;
  module <- match manifest !! kernel_version with
            | Some module =>
                emit (Log DEBUG (FoundModule module)) ;;; ret module
            | None => raise (KernelModuleNotFoundError kernel_version (url self))
            end ;;
  path <- fetch_module self module ;;
  ret path.

(** ** The vocabulary of the properties *)

(** [s] after the events [evs], the files unchanged. *)
Definition after (s : state) (evs : list event) : state :=
  {| fs := fs s; trace := trace s ++ evs |}.

(** The URL [get_manifest] requests. *)
Definition manifest_path (self : Repository) (metadata : manifest_dict) : string :=
  url self +:+ "/" +:+ Py.format_arg (manifest_location metadata).

(** The record [verify_checksum] logs. *)
Definition checksum_record (data : string) (filename : option string) : event :=
  Log DEBUG (CalculatedChecksum (sha256_hexdigest data) filename).

(** The exception [verify_checksum] raises. *)
Definition checksum_error (self : Repository) (data checksum : string)
    (filename : option string) : exn :=
  RepositoryError
    (url self +:+ "/" +:+ Py.format_arg filename)
    (Message ("checksum verification failed, expected " +:+ checksum
              +:+ " got " +:+ sha256_hexdigest data)).

(** Some record of the computed checksum of [data] stands before position
    [i] of [evs]. *)
Definition checksum_logged_before (evs : list event) (i : nat) (data : string) : Prop :=
  ∃ j filename, j < i ∧ evs !! j = Some (checksum_record data filename).

(** [data] was given to the decoder before position [i] of [evs], and the
    decoder returned [manifest]. *)
Definition decoded_before (evs : list event) (i : nat) (manifest : string) : Prop :=
  ∃ j data, j < i ∧ evs !! j = Some (Gunzip data) ∧ gzip_read data = Ok manifest.

(** The file name and the URL of [fetch_module]. *)
Definition module_filename (module : kernel_module) : string :=
  "lime-" +:+ utc_isoformat time_time +:+ "-" +:+ module_version module +:+ ".ko".

Definition module_url (self : Repository) (module : kernel_module) : string :=
  url self +:+ "/" +:+ Py.format_arg (module_location module).

(** The URLs of [get_metadata]. *)
Definition metadata_path (self : Repository) : string :=
  url self +:+ "/" +:+ metadata_dir self +:+ "/" +:+ metadata_file self.

Definition metadata_sig_path (self : Repository) : string :=
  Py.rstrip (url self) "/" +:+ "/" +:+ metadata_dir self +:+ "/"
    +:+ metadata_file self +:+ ".sig".

(** The document [manifest_xml] has, among the children of its [modules]
    element, one that reads as the record [m]. *)
Definition contains_module (manifest_xml : string) (m : kernel_module) : Prop :=
  ∃ root mods entry,
    untangle_parse manifest_xml = Ok root
    ∧ getattr root "modules" = Ok (One mods)
    ∧ entry ∈ children mods
    ∧ module_of_element entry = Ok m.


(** The last character of a string, if it has one. *)
Fixpoint last_char (s : string) : option ascii :=
  match s with
  | EmptyString => None
  | String c EmptyString => Some c
  | String _ s' => last_char s'
  end.

(** Every character of [t] is one of [chars]. *)
Fixpoint all_in (t chars : string) : bool :=
  match t with
  | EmptyString => true
  | String c t' => Py.mem_char c chars && all_in t' chars
  end.

(** The URLs requested in a trace, in the order of the requests. *)
Fixpoint requests (evs : list event) : list string :=
  match evs with
  | [] => []
  | Get u :: evs' => u :: requests evs'
  | _ :: evs' => requests evs'
  end.

(** The files written in a trace. *)
Fixpoint writes (evs : list event) : list string :=
  match evs with
  | [] => []
  | Write filename _ :: evs' => filename :: writes evs'
  | _ :: evs' => writes evs'
  end.

(** [self] with another value of [gpg_verify]. *)
Definition with_gpg_verify (self : Repository) (b : bool) : Repository :=
  {| url := url self;
     gpg_verify := b;
     metadata_dir := metadata_dir self;
     metadata_file := metadata_file self |}.

End Client.

(** ** A concrete platform

    The libraries, concrete enough to run the client: SHA-256 as FIPS 180-4
    defines it, untangle's elements as trees, and stand-ins for the
    decoder, the XML parser and the network, which answer on the payloads
    of the scenarios below. *)

Module SHA256.
Local Open Scope Z_scope.

Definition w32 (x : Z) : Z := x mod 4294967296.

Definition add (x y : Z) : Z := w32 (x + y).

Definition rotr (n x : Z) : Z :=
  Z.lor (Z.shiftr x n) (w32 (Z.shiftl x (32 - n))).

Definition Ch (x y z : Z) : Z := Z.lxor (Z.land x y) (Z.land (Z.lnot x) z).

Definition Maj (x y z : Z) : Z :=
  Z.lxor (Z.lxor (Z.land x y) (Z.land x z)) (Z.land y z).

Definition Sigma0 (x : Z) : Z := Z.lxor (Z.lxor (rotr 2 x) (rotr 13 x)) (rotr 22 x).

Definition Sigma1 (x : Z) : Z := Z.lxor (Z.lxor (rotr 6 x) (rotr 11 x)) (rotr 25 x).

Definition sigma0 (x : Z) : Z := Z.lxor (Z.lxor (rotr 7 x) (rotr 18 x)) (Z.shiftr x 3).

Definition sigma1 (x : Z) : Z := Z.lxor (Z.lxor (rotr 17 x) (rotr 19 x)) (Z.shiftr x 10).

(** The first primes, by trial division. *)
Definition prime (n : Z) : bool :=
  (1 <? n) && forallb (fun d => negb (n mod d =? 0)) (map Z.of_nat (seq 2 (Z.to_nat n - 2))).

Definition primes (k : nat) : list Z :=
  firstn k (List.filter prime (map Z.of_nat (seq 2 400))).

(** The integer cube root, bit by bit from the bit [bits] down. *)
Fixpoint cube_root (bits : nat) (n r : Z) : Z :=
  match bits with
  | O => r
  | S b =>
      let r' := r + 2 ^ Z.of_nat b in
      if r' * r' * r' <=? n then cube_root b n r' else cube_root b n r
  end.

(** The round constants: the first 32 bits of the fractional parts of the
    cube roots of the first 64 primes. *)
Definition K : list Z :=
  Eval vm_compute in
    map (fun p => w32 (cube_root 40 (p * 2 ^ 96) 0)) (primes 64).

(** The initial hash value: the same of the square roots of the first 8
    primes. *)
Definition H0 : list Z :=
  Eval vm_compute in map (fun p => w32 (Z.sqrt (p * 2 ^ 64))) (primes 8).

(** The bytes of the message. *)
Fixpoint bytes_of (s : string) : list Z :=
  match s with
  | EmptyString => []
  | String c s' => Z.of_N (N_of_ascii c) :: bytes_of s'
  end.

(** [n] on [k] bytes, the most significant first. *)
Fixpoint big_endian (k : nat) (n : Z) : list Z :=
  match k with
  | O => []
  | S k' => (Z.shiftr n (8 * Z.of_nat k')) mod 256 :: big_endian k' n
  end.

(** Padding: the bit 1, zeros up to 56 modulo 64, the length in bits on
    8 bytes. *)
Definition pad (msg : list Z) : list Z :=
  let len := Z.of_nat (length msg) in
  let zeros := Z.to_nat ((55 - len) mod 64) in
  msg ++ [128] ++ repeat 0 zeros ++ big_endian 8 (8 * len).

(** The big-endian 32-bit words of a list of bytes. *)
Fixpoint words_of (fuel : nat) (bytes : list Z) : list Z :=
  match fuel, bytes with
  | S fuel', a :: b :: c :: d :: rest =>
      (Z.shiftl a 24 + Z.shiftl b 16 + Z.shiftl c 8 + d) :: words_of fuel' rest
  | _, _ => []
  end.

(** The message schedule, the latest word first. *)
Fixpoint schedule (n : nat) (w : list Z) : list Z :=
  match n with
  | O => w
  | S n' =>
      let wt := add (add (sigma1 (nth 1 w 0)) (nth 6 w 0))
                    (add (sigma0 (nth 14 w 0)) (nth 15 w 0)) in
      schedule n' (wt :: w)
  end.

Definition round (st : list Z) (kw : Z * Z) : list Z :=
  match st with
  | [a; b; c; d; e; f; g; h] =>
      let t1 := add (add (add h (Sigma1 e)) (add (Ch e f g) (fst kw))) (snd kw) in
      let t2 := add (Sigma0 a) (Maj a b c) in
      [add t1 t2; a; b; c; add d t1; e; f; g]
  | _ => st
  end.

Definition compress (h : list Z) (block : list Z) : list Z :=
  let w := rev (schedule 48 (rev block)) in
  let st := fold_left round (combine K w) h in
  map (fun p => add (fst p) (snd p)) (combine h st).

Fixpoint blocks (fuel : nat) (words : list Z) (h : list Z) : list Z :=
  match fuel, words with
  | S fuel', _ :: _ => blocks fuel' (skipn 16 words) (compress h (firstn 16 words))
  | _, _ => h
  end.

Definition digest (s : string) : list Z :=
  let bytes := pad (bytes_of s) in
  let words := words_of (length bytes) bytes in
  blocks (length words) words H0.

Definition hex_digit (n : Z) : ascii :=
  if n <? 10 then ascii_of_N (Z.to_N (48 + n)) else ascii_of_N (Z.to_N (87 + n)).

Fixpoint hex (k : nat) (n : Z) : string :=
  match k with
  | O => EmptyString
  | S k' => String (hex_digit ((Z.shiftr n (4 * Z.of_nat k')) mod 16)) (hex k' n)
  end.

(** [hashlib.sha256(s).hexdigest()]. *)
Definition hexdigest (s : string) : string :=
  fold_right (fun w acc => hex 8 w +:+ acc) EmptyString (digest s).

End SHA256.

Module Scenario.

(** *** untangle *)

(** An element: its name, attributes, children and character data. *)
#[warnings="-register-all"]
Inductive element :=
| Elem (name : option string) (attributes : list (string * string))
       (children : list element) (cdata : string).

Definition element_name (e : element) : option string :=
  match e with Elem name _ _ _ => name end.

Definition element_attributes (e : element) : list (string * string) :=
  match e with Elem _ attributes _ _ => attributes end.

Definition element_children (e : element) : list element :=
  match e with Elem _ _ children _ => children end.

Definition element_cdata (e : element) : string :=
  match e with Elem _ _ _ cdata => cdata end.

(** [x._name == key]. *)
Definition named (key : string) (c : element) : bool :=
  match element_name c with
  | Some name => String.eqb name key
  | None => false
  end.

(** [Element.__getattr__]: the children of that name. *)
Definition element_getattr (e : element) (key : string) : result (node element) :=
  match List.filter (named key) (element_children e) with
  | [] => Err (AttributeError ("'" +:+ Py.format_arg (element_name e)
                               +:+ "' has no attribute '" +:+ key +:+ "'"))
  | [c] => Ok (One c)
  | l => Ok (Several l)
  end.

(** [Element.__getitem__]: [self._attributes.get(key)]. *)
Fixpoint assoc (key : string) (l : list (string * string)) : option string :=
  match l with
  | [] => None
  | (k, v) :: l' => if String.eqb k key then Some v else assoc key l'
  end.

Definition element_get_attribute (e : element) (key : string) : option string :=
  assoc key (element_attributes e).

(** The text of an element. *)
Fixpoint render_attributes (l : list (string * string)) : string :=
  match l with
  | [] => ""
  | (k, v) :: l' => " " +:+ k +:+ "='" +:+ v +:+ "'" +:+ render_attributes l'
  end.

Fixpoint render (e : element) : string :=
  match e with
  | Elem name attributes children cdata =>
      let tag := match name with Some tag => tag | None => "" end in
      "<" +:+ tag +:+ render_attributes attributes +:+ ">" +:+ cdata
      +:+ (fix render_all (l : list element) : string :=
             match l with
             | [] => ""
             | c :: l' => render c +:+ render_all l'
             end) children
      +:+ "</" +:+ tag +:+ ">"
  end.

(** The parser, on the documents it knows: the root element untangle
    returns, [Element(None, None)], has the document element for its only
    child. *)
Fixpoint parse_known (known : list (string * element)) (xml : string)
    : result element :=
  match known with
  | [] => Err (Exception "SAXParseException" "not well-formed (invalid token)")
  | (text, document) :: known' =>
      if String.eqb text xml then Ok (Elem None [] [document] "")
      else parse_known known' xml
  end.

(** *** gzip *)

(** The magic number of a gzip stream. *)
Definition gzip_magic : string :=
  String (ascii_of_nat 31) (String (ascii_of_nat 139) EmptyString).

(** A stand-in for the encoder: the magic number, then the data as they
    are. *)
Definition gzip (data : string) : string := gzip_magic +:+ data.

Definition gunzip (raw : string) : result string :=
  match raw with
  | String a (String b data) =>
      if Ascii.eqb a (ascii_of_nat 31) && Ascii.eqb b (ascii_of_nat 139)
      then Ok data
      else Err (IOError "Not a gzipped file")
  | _ => Err (IOError "Not a gzipped file")
  end.

(** *** int and datetime *)

Fixpoint decimal (s : string) (acc : Z) : option Z :=
  match s with
  | EmptyString => Some acc
  | String c s' =>
      let d := (Z.of_N (N_of_ascii c) - 48)%Z in
      if (0 <=? d)%Z && (d <=? 9)%Z then decimal s' (10 * acc + d)%Z else None
  end.

(** [int(s)] for a string of decimal digits. *)
Definition int_of_string (s : string) : result Z :=
  match s, decimal s 0 with
  | String _ _, Some n => Ok n
  | _, _ => Err (ValueError ("invalid literal for int() with base 10: '" +:+ s +:+ "'"))
  end.

(** [n] in decimal on at least [k] digits. *)
Fixpoint zero_padded (k : nat) (n : Z) : string :=
  match k with
  | O => ""
  | S k' => zero_padded k' (n / 10) +:+ pretty (n mod 10)%Z
  end.

(** [datetime.utcfromtimestamp(t).isoformat()] for a whole number of
    seconds of the years 1 to 9999: the civil date of the day number. *)
Definition isoformat (t : Z) : string :=
  let days := (t / 86400)%Z in
  let secs := (t mod 86400)%Z in
  let z := (days + 719468)%Z in
  let era := (z / 146097)%Z in
  let doe := (z - era * 146097)%Z in
  let yoe := ((doe - doe / 1460 + doe / 36524 - doe / 146096) / 365)%Z in
  let doy := (doe - (365 * yoe + yoe / 4 - yoe / 100))%Z in
  let mp := ((5 * doy + 2) / 153)%Z in
  let d := (doy - (153 * mp + 2) / 5 + 1)%Z in
  let m := (if (mp <? 10)%Z then mp + 3 else mp - 9)%Z in
  let y := (yoe + era * 400 + (if (m <=? 2)%Z then 1 else 0))%Z in
  zero_padded 4 y +:+ "-" +:+ zero_padded 2 m +:+ "-" +:+ zero_padded 2 d
  +:+ "T" +:+ zero_padded 2 (secs / 3600) +:+ ":"
  +:+ zero_padded 2 (secs mod 3600 / 60) +:+ ":" +:+ zero_padded 2 (secs mod 60).

(** *** open *)

(** [open(filename, 'wb')] in a working directory that can be written and
    has no directory in it: a name with a slash is a file of a directory
    that is not there. *)
Definition open_for_writing (filename : string) : option string :=
  if Py.mem_char "/"%char filename then
    Some ("[Errno 2] No such file or directory: '" +:+ filename +:+ "'")
  else None.

(** *** requests *)

(** A server: what it answers on the URLs it knows, and 404 elsewhere. *)
Fixpoint serve (pages : list (string * string)) (url : string) : response :=
  match pages with
  | [] => {| status_code := 404; content := ""; raw := "" |}
  | (u, body) :: pages' =>
      if String.eqb u url then {| status_code := 200; content := body; raw := body |}
      else serve pages' url
  end.

(** *** The payloads *)

Definition leaf (name text : string) : element := Elem (Some name) [] [] text.

Definition href (name target : string) : element :=
  Elem (Some name) [("href", target)] [] "".

(** A [module] element of a manifest. *)
Definition module_entry (version checksum location : string) : element :=
  Elem (Some "module") [("type", "lime")]
    [leaf "name" location;
     leaf "arch" "x86_64";
     leaf "checksum" checksum;
     leaf "version" version;
     leaf "packager" "lime-compiler";
     href "location" location;
     href "signature" (location +:+ ".sig");
     leaf "platform" "linux"] "".

(** A [data] element of repomd.xml for the manifest [document], served
    compressed at [location]. *)
Definition data_entry (type location document : string) : element :=
  Elem (Some "data") [("type", type)]
    [leaf "checksum" (SHA256.hexdigest (gzip document));
     leaf "open_checksum" (SHA256.hexdigest document);
     href "location" location;
     leaf "timestamp" "1478131200";
     leaf "size" (pretty (String.length (gzip document)));
     leaf "open_size" (pretty (String.length document))] "".

Definition repomd (entries : list element) : element :=
  Elem (Some "metadata") [] (leaf "revision" "1478131200" :: entries) "".

(** The kernel module and an older build of it. *)
Definition artifact : string := "ELF lime-5.4.0-generic.ko".

Definition old_artifact : string := "ELF lime-5.4.0-generic.ko (old)".

Definition C3 : string := Eval vm_compute in SHA256.hexdigest artifact.

Definition old_C3 : string := Eval vm_compute in SHA256.hexdigest old_artifact.

(** The manifest of the end-to-end scenario: one module. *)
Definition modules_A : element :=
  Elem (Some "modules") [] [module_entry "5.4.0-generic" C3 "lime-5.4.0.ko"] "".

Definition manifest_A : string := Eval vm_compute in render modules_A.

Definition gz_A : string := Eval vm_compute in gzip manifest_A.

Definition C1 : string := Eval vm_compute in SHA256.hexdigest gz_A.

Definition C2 : string := Eval vm_compute in SHA256.hexdigest manifest_A.

(** A manifest that lists the version twice: the entry of the scenario,
    then one that declares the checksum of the older build. *)
Definition modules_B : element :=
  Elem (Some "modules") []
    [module_entry "5.4.0-generic" C3 "lime-5.4.0.ko";
     module_entry "5.4.0-generic" old_C3 "lime-5.4.0.ko"] "".

Definition manifest_B : string := Eval vm_compute in render modules_B.

Definition gz_B : string := Eval vm_compute in gzip manifest_B.

Definition C1_B : string := Eval vm_compute in SHA256.hexdigest gz_B.

Definition C2_B : string := Eval vm_compute in SHA256.hexdigest manifest_B.

(** A manifest that lists the version twice the other way round: the
    entry of the older build, then the entry of the scenario. *)
Definition modules_D : element :=
  Elem (Some "modules") []
    [module_entry "5.4.0-generic" old_C3 "lime-5.4.0.ko";
     module_entry "5.4.0-generic" C3 "lime-5.4.0.ko"] "".

Definition manifest_D : string := Eval vm_compute in render modules_D.




(** A manifest whose second module has no [platform] child. *)
Definition modules_C : element :=
  Elem (Some "modules") []
    [module_entry "5.3.0-generic" old_C3 "lime-5.3.0.ko";
     Elem (Some "module") [("type", "lime")]
       [leaf "name" "lime-5.4.0.ko";
        leaf "arch" "x86_64";
        leaf "checksum" C3;
        leaf "version" "5.4.0-generic";
        leaf "packager" "lime-compiler";
        href "location" "lime-5.4.0.ko";
        href "signature" "lime-5.4.0.ko.sig"] ""] "".

Definition manifest_C : string := Eval vm_compute in render modules_C.

(** The [data] elements of the two manifests, and of the second one at
    another location. *)
Definition data_A : element :=
  Eval vm_compute in data_entry "kernel" "kernel.xml.gz" manifest_A.

Definition data_B : element :=
  Eval vm_compute in data_entry "kernel" "kernel.xml.gz" manifest_B.

Definition data_B2 : element :=
  Eval vm_compute in data_entry "kernel" "kernel-2.xml.gz" manifest_B.

Definition data_D : element :=
  Eval vm_compute in data_entry "kernel" "kernel.xml.gz" manifest_D.

(** The index of each scenario, and one with two [data] elements of the
    same type. *)
Definition repomd_A : element := repomd [data_A].

Definition repomd_B : element := repomd [data_B].

Definition repomd_AB : element := repomd [data_A; data_B2].

Definition repomd_D : element := repomd [data_D].

Definition index_A : string := Eval vm_compute in render repomd_A.

Definition index_B : string := Eval vm_compute in render repomd_B.

Definition index_AB : string := Eval vm_compute in render repomd_AB.

Definition index_D : string := Eval vm_compute in render repomd_D.

(** The documents the parser knows; any other text is refused. *)
Definition documents : list (string * element) :=
  [(index_A, repomd_A); (index_B, repomd_B); (index_AB, repomd_AB);
   (index_D, repomd_D);
   (manifest_A, modules_A); (manifest_B, modules_B); (manifest_C, modules_C);
   (manifest_D, modules_D)].

(** The platform of a server. *)
Definition platform (pages : list (string * string)) : Platform :=
  {| sha256_hexdigest := SHA256.hexdigest;
     gzip_read := gunzip;
     Element := element;
     untangle_parse := parse_known documents;
     getattr := element_getattr;
     get_attribute := element_get_attribute;
     cdata := element_cdata;
     children := element_children;
     int := int_of_string;
     fromtimestamp := fun n => Ok (Datetime n);
     utc_isoformat := isoformat;
     requests_get := serve pages;
     time_time := 1478131200;
     open_error := open_for_writing |}.

Definition base : string := "https://threatresponse-lime-modules.s3.amazonaws.com".

(** The repository of the end-to-end scenario. *)
Definition pages_A : list (string * string) :=
  [(base +:+ "/repodata/repomd.xml", index_A);
   (base +:+ "/kernel.xml.gz", gz_A);
   (base +:+ "/lime-5.4.0.ko", artifact)].

(** The same with the manifest that lists the version twice. *)
Definition pages_B : list (string * string) :=
  [(base +:+ "/repodata/repomd.xml", index_B);
   (base +:+ "/kernel.xml.gz", gz_B);
   (base +:+ "/lime-5.4.0.ko", artifact)].


(** The repository of the scenario with the older build in the place of
    the module. *)
Definition pages_old : list (string * string) :=
  [(base +:+ "/repodata/repomd.xml", index_A);
   (base +:+ "/kernel.xml.gz", gz_A);
   (base +:+ "/lime-5.4.0.ko", old_artifact)].

(** A repository that serves the manifest of the scenario as debug.gz. *)
Definition pages_debug : list (string * string) :=
  [(base +:+ "/debug.gz", gz_A)].

(** A repository whose manifest was damaged on the way. *)
Definition pages_damaged : list (string * string) :=
  [(base +:+ "/kernel.xml.gz", "damaged")].

(** A server that is down. *)
Definition pages_down : list (string * string) := [].

Definition world_A : Platform := platform pages_A.

Definition world_B : Platform := platform pages_B.


Definition world_old : Platform := platform pages_old.

Definition world_debug : Platform := platform pages_debug.

Definition world_damaged : Platform := platform pages_damaged.

Definition world_down : Platform := platform pages_down.

(** The client, as [Repository(base + "/", False)] builds it, and the
    state it starts in. *)
Definition client : Repository := init (base +:+ "/") false.

Definition start : state := {| fs := ∅; trace := [] |}.

(** What the client reads in these documents. *)
Definition descriptor (location checksum open_checksum : string)
    (size open_size : Z) : manifest_dict :=
  {| manifest_type := Some "kernel";
     manifest_checksum := checksum;
     manifest_open_checksum := open_checksum;
     manifest_location := Some location;
     manifest_timestamp := Datetime 1478131200;
     manifest_size := size;
     manifest_open_size := open_size |}.

Definition descriptor_A : manifest_dict :=
  descriptor "kernel.xml.gz" C1 C2 362 360.



Definition descriptor_B2 : manifest_dict :=
  descriptor "kernel-2.xml.gz" C1_B C2_B 703 701.

Definition metadata_of (d : manifest_dict) : metadata :=
  {| revision := "1478131200"; manifests := {[ Some "kernel" := d ]} |}.

Definition module_of (version checksum location : string) : kernel_module :=
  {| module_type := Some "lime";
     module_name := location;
     module_arch := "x86_64";
     module_checksum := checksum;
     module_version := version;
     module_packager := "lime-compiler";
     module_location := Some location;
     module_signature := Some (location +:+ ".sig");
     module_platform := "linux" |}.

Definition module_A : kernel_module := module_of "5.4.0-generic" C3 "lime-5.4.0.ko".

Definition module_old : kernel_module := module_of "5.4.0-generic" old_C3 "lime-5.4.0.ko".

(** The name [fetch_module] gives the file. *)
Definition filename_A : string := "lime-2016-11-03T00:00:00-5.4.0-generic.ko".

(** The repository of the scenario with the signature of its index, and
    the client that asks for it. *)
Definition pages_signed : list (string * string) :=
  pages_A ++ [(base +:+ "/repodata/repomd.xml.sig", "signature")].

Definition world_signed : Platform := platform pages_signed.

Definition client_gpg : Repository := init (base +:+ "/") true.



(** The child of [modules_C] that has no [platform]. *)
Definition entry_no_platform : element :=
  Elem (Some "module") [("type", "lime")]
    [leaf "name" "lime-5.4.0.ko";
     leaf "arch" "x86_64";
     leaf "checksum" C3;
     leaf "version" "5.4.0-generic";
     leaf "packager" "lime-compiler";
     href "location" "lime-5.4.0.ko";
     href "signature" "lime-5.4.0.ko.sig"] "".

(** A repository that answers the manifest where the index should be. *)
Definition pages_swapped : list (string * string) :=
  [(base +:+ "/repodata/repomd.xml", manifest_A)].

Definition world_swapped : Platform := platform pages_swapped.

(** A descriptor that declares the checksum of the damaged payload. *)
Definition damaged_C1 : string := Eval vm_compute in SHA256.hexdigest "damaged".

Definition descriptor_damaged : manifest_dict :=
  descriptor "kernel.xml.gz" damaged_C1 C2 7 360.

End Scenario.

(** ** Properties of the client, on any platform *)

(** Membership of a request in an explicit list of events. *)
Ltac requests_of :=
  intros;
  repeat match goal with
         | H : _ ∈ _ ++ _ |- _ => apply elem_of_app in H; destruct H
         | H : _ ∈ _ :: _ |- _ => apply elem_of_cons in H; destruct H
         | H : _ ∈ [] |- _ => by apply elem_of_nil in H
         | H : Get _ = Get _ |- _ => injection H as ->
         | H : Get _ = _ |- _ => discriminate H
         end;
  eauto.

(** Case analysis on the position [i] of an event in an explicit list:
    one goal per position where the event can stand. *)
Ltac each_position i :=
  simpl;
  lazymatch goal with
  | |- _ ≠ _ => unfold not; each_position i
  | |- None = Some _ → _ => intros [=]
  | |- @lookup _ _ _ _ _ [] = Some _ → _ => rewrite lookup_nil; intros [=]
  | |- @lookup _ _ _ _ i (_ :: _) = Some _ → _ =>
      destruct i as [|i]; simpl; [ try (intros [=]; subst) | each_position i ]
  end.

Section Properties.

Context {P : Platform}.

#[local] Arguments emit : simpl never.
#[local] Arguments http_get : simpl never.
#[local] Arguments after : simpl never.
#[local] Arguments bind : simpl never.

Lemma after_after s l1 l2 : after (after s l1) l2 = after s (l1 ++ l2).
Proof. unfold after; simpl. by rewrite <- app_assoc. Qed.

Lemma bind_run {A B} (m : M A) (k : A → M B) s :
  bind m k s = match m s with
               | (Ok a, s') => k a s'
               | (Err e, s') => (Err e, s')
               end.
Proof. reflexivity. Qed.

Lemma emit_after ev s : emit ev s = (Ok tt, after s [ev]).
Proof. reflexivity. Qed.

Lemma http_get_after u s : http_get u s = (Ok (requests_get u), after s [Get u]).
Proof. reflexivity. Qed.

(** What [verify_checksum] answers, in full. *)
Lemma verify_checksum_run self data checksum filename s :
  verify_checksum self data checksum filename s =
    (if String.eqb (sha256_hexdigest data) checksum then Ok tt
     else Err (RepositoryError
                 (url self +:+ "/" +:+ Py.format_arg filename)
                 (Message ("checksum verification failed, expected " +:+ checksum
                           +:+ " got " +:+ sha256_hexdigest data))),
     after s [Log DEBUG (CalculatedChecksum (sha256_hexdigest data) filename)]).
Proof.
  unfold verify_checksum, bind. rewrite emit_after.
  by destruct (String.eqb _ _).
Qed.

(** C2.  [verify_checksum] raises exactly when the SHA-256 hex digest of
    [data] is not the string [expected] (string equality: the comparison is
    case-sensitive).  The exception is the program's [RepositoryError]; it
    carries the label (after the repository URL), the expected value and
    the computed digest.  When the two are equal the call returns [None],
    and in both cases the only effect is one DEBUG log record with the
    computed digest: the files are untouched. *)
Theorem verify_checksum_iff (self : Repository) (data expected : string)
    (label : option string) (s : state) :
  let calculated := sha256_hexdigest data in
  let logged := after s [Log DEBUG (CalculatedChecksum calculated label)] in
  (calculated ≠ expected ↔
     verify_checksum self data expected label s =
       (Err (RepositoryError
               (url self +:+ "/" +:+ Py.format_arg label)
               (Message ("checksum verification failed, expected " +:+ expected
                         +:+ " got " +:+ calculated))), logged))
  ∧ (calculated = expected ↔
       verify_checksum self data expected label s = (Ok tt, logged))
  ∧ fs logged = fs s.
Proof.
  intros calculated logged. rewrite verify_checksum_run.
  fold calculated. fold logged.
  destruct (String.eqb calculated expected) eqn:E.
  - apply String.eqb_eq in E. repeat split; try done.
  - apply String.eqb_neq in E. repeat split; try done.
Qed.

(** What [parse_manifest] answers: it never raises. *)
Lemma parse_manifest_run self manifest_xml s :
  parse_manifest self manifest_xml s =
    (Ok (parse_manifest_try manifest_xml).1,
     after s (Parse manifest_xml ::
              match (parse_manifest_try manifest_xml).2 with
              | Some e => [Stdout e]
              | None => []
              end)).
Proof.
  unfold parse_manifest, bind. rewrite emit_after.
  destruct (parse_manifest_try manifest_xml) as [manifest [e|]]; simpl.
  - unfold ret, after; simpl. by rewrite <- app_assoc.
  - done.
Qed.

(** What [get_manifest] answers, path by path. *)
Lemma get_manifest_run self metadata s :
  let req := requests_get (manifest_path self metadata) in
  let got := Get (manifest_path self metadata) in
  let checked := checksum_record (raw req) (manifest_location metadata) in
  get_manifest self metadata s =
    if negb (status_code req =? 200)%Z then
      (Err (UnboundLocalError "gz_manifest"), after s [got])
    else if negb (String.eqb (sha256_hexdigest (raw req)) (manifest_checksum metadata)) then
      (Err (checksum_error self (raw req) (manifest_checksum metadata)
              (manifest_location metadata)),
       after s [got; checked])
    else
      match gzip_read (raw req), location_rstrip (manifest_location metadata) with
      | Err e, _ => (Err e, after s [got; checked; Gunzip (raw req)])
      | Ok _, Err e => (Err e, after s [got; checked; Gunzip (raw req)])
      | Ok manifest, Ok label =>
          if negb (String.eqb (sha256_hexdigest manifest)
                     (manifest_open_checksum metadata)) then
            (Err (checksum_error self manifest (manifest_open_checksum metadata) label),
             after s [got; checked; Gunzip (raw req); checksum_record manifest label])
          else
            parse_manifest self manifest
              (after s [got; checked; Gunzip (raw req); checksum_record manifest label])
      end.
Proof.
  intros req got checked. unfold get_manifest.
  rewrite bind_run, http_get_after. fold (manifest_path self metadata). fold req.
  destruct (status_code req =? 200)%Z; cbn [negb]; [|done].
  rewrite bind_run. cbn [ret]. rewrite bind_run, verify_checksum_run.
  fold checked.
  destruct (String.eqb (sha256_hexdigest (raw req)) _); cbn [negb];
    [|by rewrite after_after].
  rewrite bind_run. unfold unzip_manifest. rewrite bind_run, emit_after.
  unfold lift. rewrite !after_after.
  destruct (gzip_read (raw req)) as [manifest|e].
  2:{ done. }
  rewrite bind_run. destruct (location_rstrip _) as [label|e]; [|done].
  rewrite bind_run, verify_checksum_run, after_after. fold (checksum_record manifest label).
  by destruct (String.eqb (sha256_hexdigest manifest) _).
Qed.

(** C3.  In every run of [get_manifest]: whatever is given to the decoder
    has the digest [metadata['checksum']], and that digest was computed
    (and compared) before the call; whatever is given to the XML parser is
    a decoder's output with the digest [metadata['open_checksum']],
    computed and compared before the call.  When the digest of the
    downloaded payload differs from [metadata['checksum']] the call raises
    and the decoder is not called at all; after a response of status 200
    the exception is the checksum error of [verify_checksum]. *)
Theorem get_manifest_verifies_first (self : Repository) (metadata : manifest_dict)
    (s : state) :
  let req := requests_get (manifest_path self metadata) in
  ∃ evs,
    (get_manifest self metadata s).2 = after s evs
    ∧ (∀ i data, evs !! i = Some (Gunzip data) →
         sha256_hexdigest data = manifest_checksum metadata
         ∧ checksum_logged_before evs i data)
    ∧ (∀ i xml, evs !! i = Some (Parse xml) →
         sha256_hexdigest xml = manifest_open_checksum metadata
         ∧ checksum_logged_before evs i xml
         ∧ decoded_before evs i xml)
    ∧ (sha256_hexdigest (raw req) ≠ manifest_checksum metadata →
         (∃ e, (get_manifest self metadata s).1 = Err e)
         ∧ (∀ i data, evs !! i ≠ Some (Gunzip data))
         ∧ (status_code req = 200%Z →
              (get_manifest self metadata s).1 =
                Err (checksum_error self (raw req) (manifest_checksum metadata)
                       (manifest_location metadata)))).
Proof.
  intros req. rewrite get_manifest_run. fold req.
  destruct (status_code req =? 200)%Z eqn:Hstatus; cbn [negb].
  2:{ apply Z.eqb_neq in Hstatus.
      eexists; split; [reflexivity|]. cbn [fst].
      split; [intros i data; each_position i|].
      split; [intros i xml; each_position i|].
      intros _. split; [eauto|]. split; [|done].
      intros i data. each_position i. }
  destruct (String.eqb (sha256_hexdigest (raw req)) _) eqn:Hsum; cbn [negb].
  2:{ apply String.eqb_neq in Hsum.
      eexists; split; [reflexivity|]. cbn [fst].
      split; [intros i data; each_position i|].
      split; [intros i xml; each_position i|].
      intros _. split; [eauto|]. split; [|done].
      intros i data. each_position i. }
  apply String.eqb_eq in Hsum.
  assert (Hlog : ∀ evs, checksum_logged_before
            (Get (manifest_path self metadata)
             :: checksum_record (raw req) (manifest_location metadata) :: evs)
            2 (raw req)).
  { intros evs. exists 1, (manifest_location metadata). split; [lia|done]. }
  destruct (gzip_read (raw req)) as [manifest|e] eqn:Hgz.
  2:{ eexists; split; [reflexivity|]. cbn [fst].
      split; [intros i data; each_position i; by split|].
      split; [intros i xml; each_position i|].
      intros Hne. by destruct Hne. }
  destruct (location_rstrip _) as [label|e].
  2:{ eexists; split; [reflexivity|]. cbn [fst].
      split; [intros i data; each_position i; by split|].
      split; [intros i xml; each_position i|].
      intros Hne. by destruct Hne. }
  destruct (String.eqb (sha256_hexdigest manifest) _) eqn:Hopen; cbn [negb].
  2:{ eexists; split; [reflexivity|]. cbn [fst].
      split; [intros i data; each_position i; by split|].
      split; [intros i xml; each_position i|].
      intros Hne. by destruct Hne. }
  apply String.eqb_eq in Hopen.
  rewrite parse_manifest_run, after_after. cbn [fst snd].
  eexists; split; [reflexivity|].
  split; [|split].
  - intros i data.
    destruct (parse_manifest_try manifest).2; each_position i; by split.
  - intros i xml.
    assert (Hfour : checksum_logged_before
              ([Get (manifest_path self metadata);
                checksum_record (raw req) (manifest_location metadata);
                Gunzip (raw req); checksum_record manifest label] ++
               Parse manifest
               :: match (parse_manifest_try manifest).2 with
                  | Some e => [Stdout e]
                  | None => []
                  end) 4 manifest
            ∧ decoded_before
                ([Get (manifest_path self metadata);
                  checksum_record (raw req) (manifest_location metadata);
                  Gunzip (raw req); checksum_record manifest label] ++
                 Parse manifest
                 :: match (parse_manifest_try manifest).2 with
                    | Some e => [Stdout e]
                    | None => []
                    end) 4 manifest).
    { split.
      - exists 3, label. split; [lia|done].
      - exists 2, (raw req). split; [lia|done]. }
    destruct (parse_manifest_try manifest).2; each_position i; by split.
  - intros Hne. by destruct Hne.
Qed.

(** What [fetch_module] answers.  When the file cannot be opened, the
    exception of [open] and no file; when it can, the downloaded bytes are
    in the file whatever the verification says. *)
Lemma fetch_module_run self module s :
  let filename := module_filename module in
  let data := raw (requests_get (module_url self module)) in
  fetch_module self module s =
    match open_error filename with
    | None =>
        (if String.eqb (sha256_hexdigest data) (module_checksum module) then Ok filename
         else Err (checksum_error self data (module_checksum module)
                     (module_location module)),
         {| fs := <[filename := data]> (fs s);
            trace := trace s ++
                     [Log INFO (Downloading (module_url self module) filename);
                      Get (module_url self module);
                      Write filename data;
                      Read filename;
                      checksum_record data (module_location module)] |})
    | Some message =>
        (Err (IOError message),
         after s [Log INFO (Downloading (module_url self module) filename);
                  Get (module_url self module)])
    end.
Proof.
  intros filename data. unfold fetch_module.
  fold (module_filename module). fold filename. fold (module_url self module).
  rewrite bind_run, emit_after, bind_run, http_get_after. fold data.
  rewrite bind_run, after_after. unfold write_file at 1.
  destruct (open_error filename) as [message|]; [done|].
  cbn [after fs trace app].
  rewrite bind_run. unfold verify_module. rewrite bind_run.
  unfold read_file at 1. cbn [fs trace]. rewrite lookup_insert_eq.
  rewrite verify_checksum_run. unfold after, checksum_record, checksum_error.
  cbn [fs trace]. rewrite <- !app_assoc. cbn [app].
  by destruct (String.eqb (sha256_hexdigest data) _).
Qed.

(** C10.  [fetch_module] raises the error of the checksum verification
    exactly when the file could be opened and the digest of the downloaded
    bytes is not [module['checksum']].  In every such execution the state
    it leaves holds the file [filename] with the downloaded, unverified
    bytes: the file was written (and closed) before it was read back and
    its digest computed, and nothing removes it afterwards. *)
Theorem fetch_module_failure_leaves_file (self : Repository)
    (module : kernel_module) (s : state) :
  let filename := module_filename module in
  let data := raw (requests_get (module_url self module)) in
  let error := checksum_error self data (module_checksum module)
                 (module_location module) in
  ((∃ s', fetch_module self module s = (Err error, s'))
   ↔ open_error filename = None ∧ sha256_hexdigest data ≠ module_checksum module)
  ∧ (∀ s', fetch_module self module s = (Err error, s') →
       fs s' !! filename = Some data
       ∧ trace s' = trace s ++
                    [Log INFO (Downloading (module_url self module) filename);
                     Get (module_url self module);
                     Write filename data;
                     Read filename;
                     checksum_record data (module_location module)]).
Proof.
  intros filename data error. rewrite fetch_module_run.
  fold filename. fold data. fold error.
  destruct (open_error filename) as [message|].
  - split; [split; [by intros [s' [=]]|by intros [[=] _]]|by intros s' [=]].
  - destruct (String.eqb (sha256_hexdigest data) (module_checksum module)) eqn:Hsum.
    + split; [|by intros s' [=]].
      split; [by intros [s' [=]]|].
      intros [_ Hne]. by apply String.eqb_neq in Hne; rewrite Hne in Hsum.
    + apply String.eqb_neq in Hsum. split.
      * split; [done|]. intros _. by eexists.
      * intros s' [= <-]. cbn [fs trace]. split; [apply lookup_insert_eq|done].
Qed.

(** C6, as the code has it.  [get_manifest] after a response whose status
    is not 200: the name [gz_manifest] was never bound, and reading it raises
    [UnboundLocalError]; the path and the status are in no exception. *)
Theorem get_manifest_status_not_200 (self : Repository) (metadata : manifest_dict)
    (s : state) :
  status_code (requests_get (manifest_path self metadata)) ≠ 200%Z →
  get_manifest self metadata s =
    (Err (UnboundLocalError "gz_manifest"),
     after s [Get (manifest_path self metadata)]).
Proof.
  intros H. rewrite get_manifest_run. apply Z.eqb_neq in H. by rewrite H.
Qed.

(** [get_manifest] when the download and both verifications pass. *)
Lemma get_manifest_ok self metadata s location gz manifest :
  manifest_location metadata = Some location →
  status_code (requests_get (manifest_path self metadata)) = 200%Z →
  raw (requests_get (manifest_path self metadata)) = gz →
  sha256_hexdigest gz = manifest_checksum metadata →
  gzip_read gz = Ok manifest →
  sha256_hexdigest manifest = manifest_open_checksum metadata →
  get_manifest self metadata s =
    (Ok (parse_manifest_try manifest).1,
     after s ([Get (manifest_path self metadata);
               checksum_record gz (Some location);
               Gunzip gz;
               checksum_record manifest (Some (Py.rstrip location ".gz"));
               Parse manifest]
              ++ match (parse_manifest_try manifest).2 with
                 | Some e => [Stdout e]
                 | None => []
                 end)).
Proof.
  intros Hloc Hstatus Hraw Hsum Hgz Hopen. rewrite get_manifest_run.
  rewrite Hstatus, Hraw, Hsum, String.eqb_refl, Hgz, Hloc.
  cbn [negb Z.eqb Pos.eqb location_rstrip].
  rewrite Hopen, String.eqb_refl. cbn [negb].
  by rewrite parse_manifest_run, after_after.
Qed.

(** The label of the second verification of [get_manifest] is
    [location.rstrip('.gz')]. *)
Lemma get_manifest_open_label self metadata s location manifest :
  let req := requests_get (manifest_path self metadata) in
  manifest_location metadata = Some location →
  status_code req = 200%Z →
  sha256_hexdigest (raw req) = manifest_checksum metadata →
  gzip_read (raw req) = Ok manifest →
  ∃ evs,
    trace (get_manifest self metadata s).2 =
      trace s ++ [Get (manifest_path self metadata);
                  checksum_record (raw req) (Some location);
                  Gunzip (raw req);
                  checksum_record manifest (Some (Py.rstrip location ".gz"))]
              ++ evs.
Proof.
  intros req Hloc Hstatus Hsum Hgz. rewrite get_manifest_run. fold req.
  rewrite Hstatus, Hsum, String.eqb_refl, Hgz, Hloc. cbn [negb Z.eqb Pos.eqb location_rstrip].
  destruct (String.eqb _ _); cbn [negb].
  - rewrite parse_manifest_run, after_after. eexists. cbn [snd].
    unfold after. cbn [trace]. reflexivity.
  - exists []. cbn [snd]. unfold after. cbn [trace]. by rewrite app_nil_r.
Qed.

(** [get_metadata] requests the metadata file and, at most, its signature,
    and changes no file. *)
Lemma get_metadata_requests self s :
  ∃ evs,
    (get_metadata self s).2 = after s evs
    ∧ ∀ u, Get u ∈ evs → u = metadata_path self ∨ u = metadata_sig_path self.
Proof.
  unfold get_metadata. fold (metadata_path self). fold (metadata_sig_path self).
  rewrite bind_run, http_get_after.
  destruct (status_code (requests_get (metadata_path self)) =? 200)%Z.
  2:{ rewrite bind_run. unfold raise. eexists; split; [done|].
      requests_of. }
  rewrite bind_run. unfold ret at 1.
  assert (Hparse : ∀ xml s0 evs0,
    (∀ u, Get u ∈ evs0 → u = metadata_path self ∨ u = metadata_sig_path self) →
    ∃ evs, (parse_metadata self xml (after s0 evs0)).2 = after s0 evs
      ∧ ∀ u, Get u ∈ evs → u = metadata_path self ∨ u = metadata_sig_path self).
  { intros xml s0 evs0 H0. unfold parse_metadata.
    rewrite bind_run, emit_after, after_after.
    exists (evs0 ++ [Parse xml]). split.
    - by destruct (parse_metadata_try xml).
    - requests_of. }
  rewrite bind_run. destruct (gpg_verify self).
  - rewrite bind_run, http_get_after, after_after.
    destruct (status_code (requests_get (metadata_sig_path self)) =? 200)%Z.
    + unfold ret at 1. apply Hparse. requests_of.
    + unfold raise. eexists; split; [done|]. requests_of.
  - unfold ret at 1. apply Hparse. requests_of.
Qed.

(** [m] followed by [ret] is [m]. *)
Lemma bind_ret {A} (m : M A) s : bind m ret s = m s.
Proof. rewrite bind_run. by destruct (m s) as [[a|e] s']. Qed.

(** What [fetch] does once [get_metadata] has returned. *)
Lemma fetch_run self kernel_version manifest_type s s1 md :
  get_metadata self s = (Ok md, s1) →
  fetch self kernel_version manifest_type s =
    match manifests md !! Some manifest_type with
    | None => (Err (KeyError manifest_type), after s1 [Log DEBUG (ParsedMetadata md)])
    | Some descriptor =>
        match get_manifest self descriptor (after s1 [Log DEBUG (ParsedMetadata md)]) with
        | (Ok manifest, s2) =>
            match manifest !! kernel_version with
            | Some module =>
                fetch_module self module (after s2 [Log DEBUG (FoundModule module)])
            | None =>
                (Err (KernelModuleNotFoundError kernel_version (url self)), s2)
            end
        | (Err e, s2) => (Err e, s2)
        end
    end.
Proof.
  intros Hmd. unfold fetch.
  rewrite bind_run, Hmd, bind_run, emit_after, bind_run.
  destruct (manifests md !! Some manifest_type) as [descriptor|]; [|done].
  unfold ret at 1. rewrite bind_run.
  destruct (get_manifest self descriptor _) as [[manifest|e] s2]; [|done].
  rewrite bind_run.
  destruct (manifest !! kernel_version) as [module|]; [|done].
  rewrite bind_run, emit_after. unfold ret at 1. apply bind_ret.
Qed.

(** C4, as the code has it.  [fetch] for a manifest type that is not a key
    of [metadata['manifests']]: the subscript raises Python's [KeyError] with
    the type as its argument, not an exception of the program's own; the
    only requests made are those of [get_metadata]. *)
Theorem fetch_manifest_type_absent (self : Repository)
    (kernel_version manifest_type : string) (s s1 : state) (md : metadata) :
  get_metadata self s = (Ok md, s1) →
  manifests md !! Some manifest_type = None →
  fetch self kernel_version manifest_type s =
    (Err (KeyError manifest_type), after s1 [Log DEBUG (ParsedMetadata md)])
  ∧ is_project_error (KeyError manifest_type) = false
  ∧ ∃ evs,
      (fetch self kernel_version manifest_type s).2 = after s evs
      ∧ ∀ u, Get u ∈ evs → u = metadata_path self ∨ u = metadata_sig_path self.
Proof.
  intros Hmd Habsent.
  assert (Hrun : fetch self kernel_version manifest_type s =
    (Err (KeyError manifest_type), after s1 [Log DEBUG (ParsedMetadata md)])).
  { by rewrite (fetch_run _ _ _ _ _ _ Hmd), Habsent. }
  split; [done|]. split; [done|].
  rewrite Hrun. cbn [snd].
  destruct (get_metadata_requests self s) as (evs & Hevs & Hget).
  rewrite Hmd in Hevs. cbn [snd] in Hevs. rewrite Hevs, after_after.
  eexists; split; [done|]. requests_of.
Qed.

(** C5.  Once the manifest table is resolved, [fetch] looks
    [kernel_version] up in it: when the table has the version, the record
    stored under it, and no other, is what [fetch_module] is called with
    (after the DEBUG record of the module found); when it has not, [fetch]
    raises [KernelModuleNotFoundError] with the version and the URL of the
    repository, and nothing else happens. *)
Theorem fetch_lookup (self : Repository) (kernel_version manifest_type : string)
    (s s1 s2 : state) (md : metadata) (descriptor : manifest_dict)
    (manifest : gmap string kernel_module) :
  get_metadata self s = (Ok md, s1) →
  manifests md !! Some manifest_type = Some descriptor →
  get_manifest self descriptor (after s1 [Log DEBUG (ParsedMetadata md)])
    = (Ok manifest, s2) →
  (∀ module, manifest !! kernel_version = Some module →
     fetch self kernel_version manifest_type s =
       fetch_module self module (after s2 [Log DEBUG (FoundModule module)]))
  ∧ (manifest !! kernel_version = None →
       fetch self kernel_version manifest_type s =
         (Err (KernelModuleNotFoundError kernel_version (url self)), s2)).
Proof.
  intros Hmd Hd Hmanifest.
  assert (Hrun : fetch self kernel_version manifest_type s =
    match manifest !! kernel_version with
    | Some module =>
        fetch_module self module (after s2 [Log DEBUG (FoundModule module)])
    | None => (Err (KernelModuleNotFoundError kernel_version (url self)), s2)
    end).
  { by rewrite (fetch_run _ _ _ _ _ _ Hmd), Hd, Hmanifest. }
  split.
  - intros module Hm. by rewrite Hrun, Hm.
  - intros Hm. by rewrite Hrun, Hm.
Qed.

(** C7, as the code has it.  [parse_manifest] when its [try] block is left
    by an exception (the parser refused the document, or a child of
    [modules] lacks a field):
    the exception is printed and the call returns the entries stored
    before it, as if the document ended there.  No exception reaches the
    caller. *)
Theorem parse_manifest_swallows (self : Repository) (manifest_xml : string)
    (s : state) (e : exn) :
  (parse_manifest_try manifest_xml).2 = Some e →
  parse_manifest self manifest_xml s =
    (Ok (parse_manifest_try manifest_xml).1,
     after s [Parse manifest_xml; Stdout e]).
Proof. intros H. by rewrite parse_manifest_run, H. Qed.

(** A document the parser refuses gives the empty table. *)
Lemma parse_manifest_malformed self manifest_xml s e :
  untangle_parse manifest_xml = Err e →
  parse_manifest self manifest_xml s =
    (Ok ∅, after s [Parse manifest_xml; Stdout e]).
Proof.
  intros H. rewrite parse_manifest_run. unfold parse_manifest_try.
  by rewrite H.
Qed.

(** *** parse_metadata: one [data] element or several *)



(** [parse_metadata] reads its answer off [parse_metadata_try]. *)
Lemma parse_metadata_run self metadata_xml s :
  parse_metadata self metadata_xml s =
    (match parse_metadata_try metadata_xml with
     | Ok metadata => Ok metadata
     | Err e => Err (RepositoryError (url self +:+ "/" +:+ metadata_dir self) (Cause e))
     end,
     after s [Parse metadata_xml]).
Proof.
  unfold parse_metadata. rewrite bind_run, emit_after.
  by destruct (parse_metadata_try metadata_xml).
Qed.





(** *** fetch, end to end *)

(** The loop leaves alone the versions that no child it reads has. *)
Lemma parse_modules_other l acc v :
  (∀ x m, x ∈ l → module_of_element x = Ok m → module_version m ≠ v) →
  (parse_modules l acc).1 !! v = acc !! v.
Proof.
  revert acc. induction l as [|x l IH]; intros acc Hl; cbn [parse_modules]; [done|].
  destruct (module_of_element x) as [m|ex] eqn:Hx; [|done].
  rewrite IH.
  - apply lookup_insert_ne. apply (Hl x); [by left|done].
  - intros y m' Hy. apply Hl. by right.
Qed.




End Properties.

(** ** Further properties of the client, on any platform *)

(** *** Strings *)

Lemma append_nil_l (b : string) : "" +:+ b = b.
Proof. reflexivity. Qed.

Lemma append_cons_l (x : ascii) (a b : string) :
  String x a +:+ b = String x (a +:+ b).
Proof. reflexivity. Qed.

Lemma append_assoc (a b c : string) : (a +:+ b) +:+ c = a +:+ b +:+ c.
Proof. induction a as [|x a IH]; [done|]. rewrite !append_cons_l. by f_equal. Qed.

(** [rstrip] takes off a suffix made of characters of the set. *)
Lemma rstrip_suffix (s chars : string) :
  ∃ t, s = Py.rstrip s chars +:+ t ∧ all_in t chars = true.
Proof.
  induction s as [|c s IH]; [by exists ""|].
  destruct IH as (t & Hs & Ht). cbn [Py.rstrip].
  destruct (Py.rstrip s chars) as [|d r] eqn:Hr.
  - rewrite append_nil_l in Hs. subst t.
    destruct (Py.mem_char c chars) eqn:Hc.
    + exists (String c s). split; [done|]. cbn [all_in]. by rewrite Hc.
    + by exists s.
  - exists t. split; [|done]. rewrite append_cons_l. by f_equal.
Qed.

(** What [rstrip] leaves does not end with a character of the set. *)
Lemma rstrip_last (s chars : string) (c : ascii) :
  last_char (Py.rstrip s chars) = Some c → Py.mem_char c chars = false.
Proof.
  induction s as [|a s IH]; [done|]. cbn [Py.rstrip].
  destruct (Py.rstrip s chars) as [|d r] eqn:Hr.
  - destruct (Py.mem_char a chars) eqn:Ha; [done|].
    cbn [last_char]. by intros [= <-].
  - exact IH.
Qed.

(** [rstrip] leaves alone a string that does not end with a character of
    the set. *)
Lemma rstrip_id (s chars : string) :
  (∀ c, last_char s = Some c → Py.mem_char c chars = false) →
  Py.rstrip s chars = s.
Proof.
  induction s as [|a s IH]; [done|]. intros H. cbn [Py.rstrip].
  destruct s as [|b s].
  - cbn [Py.rstrip]. by rewrite (H a).
  - rewrite IH; [done|]. exact H.
Qed.

Lemma rstrip_idempotent (s chars : string) :
  Py.rstrip (Py.rstrip s chars) chars = Py.rstrip s chars.
Proof. apply rstrip_id. intros c. apply rstrip_last. Qed.

(** A suffix made of characters of the set goes away with the rest. *)
Lemma rstrip_app (s t chars : string) :
  all_in t chars = true → Py.rstrip (s +:+ t) chars = Py.rstrip s chars.
Proof.
  intros Ht. induction s as [|a s IH].
  - rewrite append_nil_l. induction t as [|b t IHt]; [done|].
    cbn [all_in] in Ht. apply andb_true_iff in Ht as [Hb Ht].
    cbn [Py.rstrip]. by rewrite (IHt Ht), Hb.
  - rewrite append_cons_l. cbn [Py.rstrip]. by rewrite IH.
Qed.

Section Further.

Context {P : Platform}.

#[local] Arguments emit : simpl never.
#[local] Arguments http_get : simpl never.
#[local] Arguments after : simpl never.
#[local] Arguments bind : simpl never.

(** *** Repository.__init__ *)

(** X1.  The URL a [Repository] keeps is the URL it was given without its
    trailing slashes, however many: it does not end with a slash, what was
    cut off is slashes only, and the URL of the signature that
    [get_metadata] builds (stripping once more) is the URL of the metadata
    file followed by [.sig]. *)
Theorem init_strips_slashes (u : string) (g : bool) :
  (∃ slashes, u = url (init u g) +:+ slashes ∧ all_in slashes "/" = true)
  ∧ last_char (url (init u g)) ≠ Some "/"%char
  ∧ metadata_sig_path (init u g) = metadata_path (init u g) +:+ ".sig"
  ∧ metadata_path (init u g) = url (init u g) +:+ "/repodata/repomd.xml".
Proof.
  split; [apply rstrip_suffix|]. split; [|split].
  - intros H. by apply rstrip_last in H.
  - unfold metadata_sig_path, metadata_path. cbn [url init metadata_dir metadata_file].
    rewrite rstrip_idempotent. by rewrite !append_assoc.
  - reflexivity.
Qed.

(** *** get_metadata *)

(** What [get_metadata] answers, path by path. *)
Lemma get_metadata_run self s :
  let req := requests_get (metadata_path self) in
  let sig := requests_get (metadata_sig_path self) in
  get_metadata self s =
    if negb (status_code req =? 200)%Z then
      (Err (RepositoryError (metadata_path self) (status_not_200 (status_code req))),
       after s [Get (metadata_path self)])
    else if gpg_verify self then
      if negb (status_code sig =? 200)%Z then
        (Err (RepositoryError (metadata_sig_path self)
                (status_not_200 (status_code sig))),
         after s [Get (metadata_path self); Get (metadata_sig_path self)])
      else
        parse_metadata self (content req)
          (after s [Get (metadata_path self); Get (metadata_sig_path self)])
    else
      parse_metadata self (content req) (after s [Get (metadata_path self)]).
Proof.
  intros req sig. unfold get_metadata.
  fold (metadata_path self). fold (metadata_sig_path self).
  rewrite bind_run, http_get_after. fold req.
  destruct (status_code req =? 200)%Z; cbn [negb]; [|by rewrite bind_run].
  rewrite bind_run. unfold ret at 1. rewrite bind_run.
  destruct (gpg_verify self).
  - rewrite bind_run, http_get_after, after_after. fold sig.
    destruct (status_code sig =? 200)%Z; cbn [negb]; [|done].
    by unfold ret at 1.
  - by unfold ret at 1.
Qed.

(** X2.  When the request of repomd.xml is answered with a status other
    than 200, [get_metadata] raises [RepositoryError] with the URL of the
    file and the status in its message; it has made that one request,
    parsed nothing, and changed no file. *)
Theorem get_metadata_status_not_200 (self : Repository) (s : state) :
  status_code (requests_get (metadata_path self)) ≠ 200%Z →
  get_metadata self s =
    (Err (RepositoryError (metadata_path self)
            (Message ("status code not 200: "
                      +:+ pretty (status_code (requests_get (metadata_path self)))))),
     after s [Get (metadata_path self)]).
Proof.
  intros H. rewrite get_metadata_run. apply Z.eqb_neq in H. by rewrite H.
Qed.

(** X3.  With [gpg_verify] set, a signature file that is answered with a
    status other than 200 makes [get_metadata] raise [RepositoryError]
    with the URL of the signature, before the metadata are parsed. *)
Theorem get_metadata_signature_missing (self : Repository) (s : state) :
  gpg_verify self = true →
  status_code (requests_get (metadata_path self)) = 200%Z →
  status_code (requests_get (metadata_sig_path self)) ≠ 200%Z →
  get_metadata self s =
    (Err (RepositoryError (metadata_sig_path self)
            (Message ("status code not 200: "
                      +:+ pretty (status_code (requests_get (metadata_sig_path self)))))),
     after s [Get (metadata_path self); Get (metadata_sig_path self)]).
Proof.
  intros Hg H200 H. rewrite get_metadata_run, H200, Hg.
  apply Z.eqb_neq in H. by rewrite H.
Qed.

(** X4.  The signature is downloaded and never looked at: once the
    signature file is answered with status 200, [get_metadata] returns or
    raises with [gpg_verify] set exactly what it does with [gpg_verify]
    unset, whatever the signature file holds; the one difference is the
    request of the signature in the trace. *)
Theorem get_metadata_signature_unchecked (self : Repository) (s : state) :
  status_code (requests_get (metadata_sig_path self)) = 200%Z →
  (get_metadata (with_gpg_verify self true) s).1
    = (get_metadata (with_gpg_verify self false) s).1
  ∧ (status_code (requests_get (metadata_path self)) = 200%Z →
     trace (get_metadata (with_gpg_verify self true) s).2
       = trace s ++ [Get (metadata_path self); Get (metadata_sig_path self);
                     Parse (content (requests_get (metadata_path self)))]
     ∧ trace (get_metadata (with_gpg_verify self false) s).2
       = trace s ++ [Get (metadata_path self);
                     Parse (content (requests_get (metadata_path self)))]).
Proof.
  intros Hsig. rewrite !get_metadata_run.
  change (metadata_path (with_gpg_verify self true)) with (metadata_path self).
  change (metadata_path (with_gpg_verify self false)) with (metadata_path self).
  change (metadata_sig_path (with_gpg_verify self true)) with (metadata_sig_path self).
  cbn [gpg_verify with_gpg_verify]. rewrite Hsig. cbn [Z.eqb Pos.eqb negb].
  split.
  - destruct (status_code (requests_get (metadata_path self)) =? 200)%Z;
      cbn [negb fst]; [|done].
    by rewrite !parse_metadata_run.
  - intros ->. cbn [Z.eqb Pos.eqb negb]. rewrite !parse_metadata_run, !after_after.
    done.
Qed.

(** *** parse_manifest *)

(** Every entry the loop leaves was in the dictionary before, or is the
    record of an element of the list, stored under its version. *)
Lemma parse_modules_inv l acc v m :
  (parse_modules l acc).1 !! v = Some m →
  acc !! v = Some m
  ∨ (module_version m = v ∧ ∃ e, e ∈ l ∧ module_of_element e = Ok m).
Proof.
  revert acc. induction l as [|e l IH]; intros acc; cbn [parse_modules].
  - by left.
  - destruct (module_of_element e) as [m'|ex] eqn:He; [|by left].
    intros H. destruct (IH _ H) as [Hacc|(Hv & e' & He' & Hm)].
    + destruct (decide (module_version m' = v)) as [<-|Hne].
      * rewrite lookup_insert_eq in Hacc. injection Hacc as <-.
        right. split; [done|]. exists e. split; [by left|done].
      * rewrite lookup_insert_ne in Hacc by done. by left.
    + right. split; [done|]. exists e'. split; [by right|done].
Qed.

(** The same of the table of a document. *)
Lemma parse_modules_inv_try manifest_xml v m :
  (parse_manifest_try manifest_xml).1 !! v = Some m →
  module_version m = v
  ∧ ∃ root mods e,
      untangle_parse manifest_xml = Ok root
      ∧ getattr root "modules" = Ok (One mods)
      ∧ e ∈ children mods
      ∧ module_of_element e = Ok m.
Proof.
  unfold parse_manifest_try.
  destruct (untangle_parse manifest_xml) as [root|ex]; cbn [rbind]; [|done].
  destruct (getattr root "modules") as [[mods|l]|ex] eqn:Hmods;
    cbn [rbind dot_children]; [|done|done].
  intros H. apply parse_modules_inv in H as [H|(Hv & e & He & Hm)];
    [by rewrite lookup_empty in H|].
  split; [done|]. by exists root, mods, e.
Qed.

(** X6.  The table of [parse_manifest] holds nothing of its own making:
    the record stored under a version has that version, and is what one of
    the children of the [modules] element of the document reads as. *)
Theorem parse_manifest_table_sound (manifest_xml : string) (v : string)
    (m : kernel_module) :
  (parse_manifest_try manifest_xml).1 !! v = Some m →
  module_version m = v ∧ contains_module manifest_xml m.
Proof. apply parse_modules_inv_try. Qed.

(** X7.  The loop of [parse_manifest] stops at the first child that cannot
    be read: the children before it are in the table, the children after it
    are never looked at, whatever they are. *)
Theorem parse_modules_stops (l1 l2 : list Element) (bad : Element)
    (acc : gmap string kernel_module) (e : exn) :
  (∀ x, x ∈ l1 → ∃ m, module_of_element x = Ok m) →
  module_of_element bad = Err e →
  parse_modules (l1 ++ bad :: l2) acc = ((parse_modules l1 acc).1, Some e)
  ∧ (parse_modules l1 acc).2 = None.
Proof.
  intros Hl1 Hbad. revert acc.
  induction l1 as [|x l1 IH]; intros acc; cbn [app parse_modules].
  - by rewrite Hbad.
  - destruct (Hl1 x) as [m Hm]; [by left|]. rewrite Hm.
    apply IH. intros y Hy. apply Hl1. by right.
Qed.

(** X8.  A version listed twice: when every child up to [e] can be read,
    and no child after [e] has the version of [e], the table holds under
    that version the record of [e], whatever was stored under it before. *)
Theorem parse_modules_last_wins (l1 l2 : list Element) (e : Element)
    (acc : gmap string kernel_module) (m : kernel_module) :
  (∀ x, x ∈ l1 → ∃ m', module_of_element x = Ok m') →
  module_of_element e = Ok m →
  (∀ x m', x ∈ l2 → module_of_element x = Ok m' →
           module_version m' ≠ module_version m) →
  (parse_modules (l1 ++ e :: l2) acc).1 !! module_version m = Some m.
Proof.
  intros Hl1 He Hl2. revert acc.
  induction l1 as [|x l1 IH]; intros acc; cbn [app parse_modules].
  - rewrite He, parse_modules_other by done. apply lookup_insert_eq.
  - destruct (Hl1 x) as [m' Hm']; [by left|]. rewrite Hm'.
    apply IH. intros y Hy. apply Hl1. by right.
Qed.

(** *** parse_metadata *)

(** The [manifest_dict] of an element has the type of the element. *)
Lemma manifest_of_element_type e d :
  manifest_of_element e = Ok d → manifest_type d = get_attribute e "type".
Proof.
  unfold manifest_of_element.
  repeat match goal with
         | |- rbind ?r _ = Ok _ → _ => destruct r; cbn [rbind]; [|done]
         end.
  by intros [= <-].
Qed.

Lemma parse_data_inv l acc m k d :
  parse_data l acc = Ok m →
  m !! k = Some d →
  acc !! k = Some d
  ∨ (manifest_type d = k ∧ ∃ e, e ∈ l ∧ manifest_of_element e = Ok d).
Proof.
  revert acc. induction l as [|e l IH]; intros acc; cbn [parse_data].
  - intros [= <-]. by left.
  - destruct (manifest_of_element e) as [d'|ex] eqn:He; cbn [rbind]; [|done].
    intros Hrun Hk. destruct (IH _ Hrun Hk) as [Hacc|(Ht & e' & He' & Hd)].
    + destruct (decide (get_attribute e "type" = k)) as [<-|Hne].
      * rewrite lookup_insert_eq in Hacc. injection Hacc as <-.
        right. split; [by apply manifest_of_element_type|].
        exists e. split; [by left|done].
      * rewrite lookup_insert_ne in Hacc by done. by left.
    + right. split; [done|]. exists e'. split; [by right|done].
Qed.

(** X9.  In the metadata [parse_metadata] returns, the descriptor stored
    under a key has that key for its type (the key [None] for a [data]
    element without a [type] attribute). *)
Theorem parse_metadata_keys (self : Repository) (metadata_xml : string)
    (s s' : state) (md : metadata) (k : option string) (d : manifest_dict) :
  parse_metadata self metadata_xml s = (Ok md, s') →
  manifests md !! k = Some d →
  manifest_type d = k.
Proof.
  rewrite parse_metadata_run. unfold parse_metadata_try, parse_mdata.
  destruct (untangle_parse metadata_xml) as [root|ex]; cbn [rbind]; [|done].
  destruct (getattr root "metadata") as [mdata|ex]; cbn [rbind]; [|done].
  destruct (rbind (dot mdata "revision") dot_cdata) as [rev|ex]; cbn [rbind]; [|done].
  destruct (dot mdata "data") as [data|ex]; cbn [rbind]; [|done].
  destruct (parse_data _ ∅) as [m|ex] eqn:Hloop; cbn [rbind]; [|done].
  intros [= <- _]. cbn [manifests]. intros Hk.
  destruct (parse_data_inv _ _ _ _ _ Hloop Hk) as [H|[H _]]; [|done].
  by rewrite lookup_empty in H.
Qed.

(** *** get_manifest *)

(** A table [get_manifest] returns is the table of a document that passed
    both verifications. *)
Lemma get_manifest_ok_inv self metadata s table s' :
  get_manifest self metadata s = (Ok table, s') →
  ∃ location manifest,
    manifest_location metadata = Some location
    ∧ status_code (requests_get (manifest_path self metadata)) = 200%Z
    ∧ sha256_hexdigest (raw (requests_get (manifest_path self metadata)))
      = manifest_checksum metadata
    ∧ gzip_read (raw (requests_get (manifest_path self metadata))) = Ok manifest
    ∧ sha256_hexdigest manifest = manifest_open_checksum metadata
    ∧ table = (parse_manifest_try manifest).1.
Proof.
  rewrite get_manifest_run.
  destruct (status_code _ =? 200)%Z eqn:Hstatus; cbn [negb]; [|done].
  apply Z.eqb_eq in Hstatus.
  destruct (String.eqb (sha256_hexdigest (raw _)) _) eqn:Hsum; cbn [negb]; [|done].
  apply String.eqb_eq in Hsum.
  destruct (gzip_read _) as [manifest|ex] eqn:Hgz; [|done].
  destruct (manifest_location metadata) as [location|] eqn:Hloc;
    cbn [location_rstrip]; [|done].
  destruct (String.eqb (sha256_hexdigest manifest) _) eqn:Hopen; cbn [negb]; [|done].
  apply String.eqb_eq in Hopen.
  rewrite parse_manifest_run. intros [= <- _].
  by exists location, manifest.
Qed.

(** X10.  [get_manifest] returns a table exactly when the manifest is
    answered with status 200, the payload has the declared checksum, the
    decoder accepts it, its output has the declared open checksum, and the
    descriptor has a location; the table is then the one [parse_manifest]
    builds from the decoded document.  In every other case it raises. *)
Theorem get_manifest_returns_iff (self : Repository) (metadata : manifest_dict)
    (s : state) (table : gmap string kernel_module) :
  let req := requests_get (manifest_path self metadata) in
  (∃ s', get_manifest self metadata s = (Ok table, s'))
  ↔ (∃ location manifest,
       manifest_location metadata = Some location
       ∧ status_code req = 200%Z
       ∧ sha256_hexdigest (raw req) = manifest_checksum metadata
       ∧ gzip_read (raw req) = Ok manifest
       ∧ sha256_hexdigest manifest = manifest_open_checksum metadata
       ∧ table = (parse_manifest_try manifest).1).
Proof.
  intros req. split.
  - intros [s' H]. by apply get_manifest_ok_inv in H.
  - intros (location & manifest & Hloc & Hstatus & Hsum & Hgz & Hopen & ->).
    rewrite (get_manifest_ok self metadata s location (raw req) manifest); eauto.
Qed.

(** [get_metadata] and [get_manifest] change no file. *)
Lemma get_metadata_fs self s : fs (get_metadata self s).2 = fs s.
Proof.
  destruct (get_metadata_requests self s) as (evs & -> & _). done.
Qed.

Lemma get_manifest_fs self metadata s : fs (get_manifest self metadata s).2 = fs s.
Proof.
  rewrite get_manifest_run.
  destruct (negb _); [done|]. destruct (negb _); [done|].
  destruct (gzip_read _); [|done]. destruct (location_rstrip _); [|done].
  destruct (negb _); [done|]. by rewrite parse_manifest_run.
Qed.

(** *** fetch_module *)


(** *** fetch *)

(** [fetch] when [get_metadata] raises. *)
Lemma fetch_run_err self kernel_version manifest_type s s1 e :
  get_metadata self s = (Err e, s1) →
  fetch self kernel_version manifest_type s = (Err e, s1).
Proof. intros H. unfold fetch. by rewrite bind_run, H. Qed.

(** X12.  Whenever [fetch] returns, the name it returns is
    lime-<date>-<kernel_version>.ko, and the file of that name holds bytes
    whose digest is the checksum that the manifest declares for the
    version; that manifest was named by the index under the manifest type
    and passed both of its verifications. *)
Theorem fetch_returns_verified (self : Repository)
    (kernel_version manifest_type : string) (s s' : state) (filename : string) :
  fetch self kernel_version manifest_type s = (Ok filename, s') →
  ∃ md descriptor manifest module,
    (get_metadata self s).1 = Ok md
    ∧ manifests md !! Some manifest_type = Some descriptor
    ∧ sha256_hexdigest (raw (requests_get (manifest_path self descriptor)))
      = manifest_checksum descriptor
    ∧ gzip_read (raw (requests_get (manifest_path self descriptor))) = Ok manifest
    ∧ sha256_hexdigest manifest = manifest_open_checksum descriptor
    ∧ (parse_manifest_try manifest).1 !! kernel_version = Some module
    ∧ filename = "lime-" +:+ utc_isoformat time_time +:+ "-" +:+ kernel_version +:+ ".ko"
    ∧ fs s' !! filename = Some (raw (requests_get (module_url self module)))
    ∧ sha256_hexdigest (raw (requests_get (module_url self module)))
      = module_checksum module.
Proof.
  destruct (get_metadata self s) as [[md|e] s1] eqn:Hmd.
  2:{ by rewrite (fetch_run_err _ _ _ _ _ _ Hmd). }
  rewrite (fetch_run _ _ _ _ _ _ Hmd).
  destruct (manifests md !! Some manifest_type) as [descriptor|] eqn:Hd; [|done].
  destruct (get_manifest self descriptor _) as [[table|e] s2] eqn:Hmanifest; [|done].
  apply get_manifest_ok_inv in Hmanifest
    as (location & manifest & _ & _ & Hsum & Hgz & Hopen & ->).
  destruct (_ !! kernel_version) as [module|] eqn:Hm; [|done].
  rewrite fetch_module_run.
  destruct (open_error (module_filename module)); [done|].
  destruct (String.eqb _ (module_checksum module)) eqn:Hdigest; [|done].
  apply String.eqb_eq in Hdigest. intros [= <- <-].
  exists md, descriptor, manifest, module.
  destruct (parse_modules_inv_try manifest kernel_version module Hm) as [Hv _].
  repeat split; try done.
  - unfold module_filename. by rewrite Hv.
  - cbn [fs]. apply lookup_insert_eq.
Qed.

(** X13.  The one file [fetch] can write is
    lime-<date>-<kernel_version>.ko: every file of another name is after
    the call what it was before, whether the call returns or raises. *)
Theorem fetch_writes_one_file (self : Repository)
    (kernel_version manifest_type : string) (s : state) (name : string) :
  name ≠ "lime-" +:+ utc_isoformat time_time +:+ "-" +:+ kernel_version +:+ ".ko" →
  fs (fetch self kernel_version manifest_type s).2 !! name = fs s !! name.
Proof.
  intros Hname.
  destruct (get_metadata self s) as [[md|e] s1] eqn:Hmd.
  2:{ rewrite (fetch_run_err _ _ _ _ _ _ Hmd). cbn [snd].
      by rewrite <- (get_metadata_fs self s), Hmd. }
  assert (Hs1 : fs s1 = fs s) by (by rewrite <- (get_metadata_fs self s), Hmd).
  rewrite (fetch_run _ _ _ _ _ _ Hmd).
  destruct (manifests md !! Some manifest_type) as [descriptor|];
    [|unfold after; cbn [snd fs]; by rewrite Hs1].
  pose proof (get_manifest_fs self descriptor
                (after s1 [Log DEBUG (ParsedMetadata md)])) as Hs2.
  destruct (get_manifest self descriptor _) as [[table|e] s2] eqn:Hmanifest;
    unfold after in Hs2; cbn [snd fs] in Hs2; rewrite Hs1 in Hs2; [|cbn [snd]; by rewrite Hs2].
  apply get_manifest_ok_inv in Hmanifest as (_ & manifest & _ & _ & _ & _ & _ & ->).
  destruct (_ !! kernel_version) as [module|] eqn:Hm; [|cbn [snd]; by rewrite Hs2].
  destruct (parse_modules_inv_try manifest kernel_version module Hm) as [Hv _].
  rewrite fetch_module_run.
  destruct (open_error (module_filename module));
    unfold after; cbn [snd fs]; [by rewrite Hs2|].
  rewrite lookup_insert_ne; [by rewrite Hs2|].
  unfold module_filename. by rewrite Hv.
Qed.


(** *** The label of the decoded manifest *)

(** X15.  For a location made of a stem and the suffix [.gz], the label of
    the second verification is the stem, provided the stem does not itself
    end with one of the characters [.], [g] and [z]. *)
Theorem get_manifest_label_stem (self : Repository) (metadata : manifest_dict)
    (s : state) (stem manifest : string) :
  let req := requests_get (manifest_path self metadata) in
  manifest_location metadata = Some (stem +:+ ".gz") →
  (∀ c, last_char stem = Some c → Py.mem_char c ".gz" = false) →
  status_code req = 200%Z →
  sha256_hexdigest (raw req) = manifest_checksum metadata →
  gzip_read (raw req) = Ok manifest →
  ∃ evs,
    trace (get_manifest self metadata s).2 =
      trace s ++ [Get (manifest_path self metadata);
                  checksum_record (raw req) (Some (stem +:+ ".gz"));
                  Gunzip (raw req);
                  checksum_record manifest (Some stem)]
              ++ evs.
Proof.
  intros req Hloc Hstem Hstatus Hsum Hgz.
  destruct (get_manifest_open_label self metadata s (stem +:+ ".gz") manifest
              Hloc Hstatus Hsum Hgz) as [evs Hevs].
  exists evs. rewrite Hevs.
  by rewrite rstrip_app, (rstrip_id stem).
Qed.

(** X16.  A payload that has the declared checksum and that the decoder
    refuses: the exception of the decoder reaches the caller of
    [get_manifest] as it is, and the parser is not called. *)
Theorem get_manifest_decoder_error (self : Repository) (metadata : manifest_dict)
    (s : state) (e : exn) :
  let req := requests_get (manifest_path self metadata) in
  status_code req = 200%Z →
  sha256_hexdigest (raw req) = manifest_checksum metadata →
  gzip_read (raw req) = Err e →
  get_manifest self metadata s =
    (Err e, after s [Get (manifest_path self metadata);
                     checksum_record (raw req) (manifest_location metadata);
                     Gunzip (raw req)]).
Proof.
  intros req Hstatus Hsum Hgz. rewrite get_manifest_run. fold req.
  by rewrite Hstatus, Hsum, String.eqb_refl, Hgz.
Qed.

(** *** The requests of fetch *)

Lemma requests_app a b : requests (a ++ b) = requests a ++ requests b.
Proof.
  induction a as [|ev a IH]; [done|].
  destruct ev; cbn [app requests]; by rewrite ?IH.
Qed.

Lemma writes_app a b : writes (a ++ b) = writes a ++ writes b.
Proof.
  induction a as [|ev a IH]; [done|].
  destruct ev; cbn [app writes]; by rewrite ?IH.
Qed.

(** The requests of [get_metadata]: the metadata file, then the signature
    if it is asked for and the metadata file was there. *)
Lemma get_metadata_trace self s :
  ∃ evs,
    (get_metadata self s).2 = after s evs
    ∧ writes evs = []
    ∧ ∃ rest, requests evs = metadata_path self :: rest
              ∧ (length rest ≤ (if gpg_verify self then 1 else 0))%nat.
Proof.
  rewrite get_metadata_run.
  destruct (negb _).
  { eexists. split; [done|]. split; [done|]. exists []. split; [done|].
    cbn [length]. lia. }
  destruct (gpg_verify self).
  - destruct (negb _).
    + eexists. split; [done|]. split; [done|]. eexists. split; [done|]. done.
    + rewrite parse_metadata_run, after_after. cbn [snd].
      eexists. split; [done|]. split; [done|]. eexists. split; [done|]. done.
  - rewrite parse_metadata_run, after_after. cbn [snd].
    eexists. split; [done|]. split; [done|]. exists []. split; [done|]. done.
Qed.

(** The one request of [get_manifest]. *)
Lemma get_manifest_trace self metadata s :
  ∃ evs,
    (get_manifest self metadata s).2 = after s evs
    ∧ writes evs = []
    ∧ requests evs = [manifest_path self metadata].
Proof.
  rewrite get_manifest_run.
  destruct (negb _); [by eexists|]. destruct (negb _); [by eexists|].
  destruct (gzip_read _); [|by eexists]. destruct (location_rstrip _); [|by eexists].
  destruct (negb _); [by eexists|].
  rewrite parse_manifest_run, after_after. cbn [snd].
  eexists. split; [done|]. rewrite writes_app, requests_app.
  by destruct (parse_manifest_try _).2.
Qed.

(** X17.  One call of [fetch] makes at most three requests, four with
    [gpg_verify]; the first is always the request of repomd.xml; and it
    writes at most one file: nothing is tried again. *)
Theorem fetch_requests (self : Repository) (kernel_version manifest_type : string)
    (s : state) :
  ∃ evs rest,
    trace (fetch self kernel_version manifest_type s).2 = trace s ++ evs
    ∧ requests evs = metadata_path self :: rest
    ∧ (length rest ≤ (if gpg_verify self then 3 else 2))%nat
    ∧ (length (writes evs) ≤ 1)%nat.
Proof.
  destruct (get_metadata_trace self s) as (evs1 & Hs1 & Hw1 & rest1 & Hr1 & Hlen1).
  assert (Hbound : (length rest1 ≤ (if gpg_verify self then 3 else 2))%nat).
  { destruct (gpg_verify self); lia. }
  destruct (get_metadata self s) as [[md|e] s1] eqn:Hmd; cbn [snd] in Hs1; subst s1.
  2:{ rewrite (fetch_run_err _ _ _ _ _ _ Hmd). cbn [snd].
      exists evs1, rest1. rewrite Hw1. cbn [length]. repeat split; try done. lia. }
  rewrite (fetch_run _ _ _ _ _ _ Hmd).
  destruct (manifests md !! Some manifest_type) as [descriptor|].
  2:{ cbn [snd]. rewrite after_after. eexists _, rest1. split; [done|].
      rewrite requests_app, writes_app, Hr1, Hw1. cbn [requests writes app length].
      rewrite app_nil_r. repeat split; try done. lia. }
  destruct (get_manifest_trace self descriptor
              (after (after s evs1) [Log DEBUG (ParsedMetadata md)]))
    as (evs2 & Hs2 & Hw2 & Hr2).
  destruct (get_manifest self descriptor _) as [[table|e] s2];
    cbn [snd] in Hs2; rewrite !after_after in Hs2; subst s2.
  2:{ cbn [snd]. eexists _, (rest1 ++ [manifest_path self descriptor]).
      split; [done|].
      rewrite !requests_app, !writes_app, Hr1, Hw1, Hr2, Hw2.
      cbn [requests writes app length]. rewrite length_app. cbn [length].
      repeat split; try done; destruct (gpg_verify self); lia. }
  destruct (table !! kernel_version) as [module|].
  2:{ cbn [snd]. eexists _, (rest1 ++ [manifest_path self descriptor]).
      split; [done|].
      rewrite !requests_app, !writes_app, Hr1, Hw1, Hr2, Hw2.
      cbn [requests writes app length]. rewrite length_app. cbn [length].
      repeat split; try done; destruct (gpg_verify self); lia. }
  rewrite fetch_module_run.
  destruct (open_error (module_filename module));
    cbn [snd trace after]; unfold after; cbn [trace];
    rewrite <- !app_assoc;
    (eexists _, (rest1 ++ [manifest_path self descriptor; module_url self module]);
     split; [done|]);
    rewrite !requests_app, !writes_app, Hr1, Hw1, Hr2, Hw2;
    cbn [requests writes app length checksum_record]; rewrite length_app; cbn [length];
    repeat split; try done; destruct (gpg_verify self); lia.
Qed.

(** X18.  A document that cannot be read: when repomd.xml is answered
    with status 200 (and the signature too, with [gpg_verify]) and the
    parser or one of the conversions raises, [get_metadata] raises
    [RepositoryError] with that exception as its reason and changes no
    file.  The URL in the error is the URL of the directory, which is the
    URL that was asked for without its file name. *)
Theorem get_metadata_document_error (self : Repository) (s : state) (cause : exn) :
  status_code (requests_get (metadata_path self)) = 200%Z →
  (gpg_verify self = true →
   status_code (requests_get (metadata_sig_path self)) = 200%Z) →
  parse_metadata_try (content (requests_get (metadata_path self))) = Err cause →
  (get_metadata self s).1
    = Err (RepositoryError (url self +:+ "/" +:+ metadata_dir self) (Cause cause))
  ∧ metadata_path self
    = (url self +:+ "/" +:+ metadata_dir self) +:+ "/" +:+ metadata_file self
  ∧ fs (get_metadata self s).2 = fs s.
Proof.
  intros Hreq Hsig Hdoc. split; [|split; [|apply get_metadata_fs]].
  - rewrite get_metadata_run, Hreq. cbn [Z.eqb Pos.eqb negb].
    destruct (gpg_verify self).
    + rewrite Hsig by done. cbn [Z.eqb Pos.eqb negb].
      by rewrite parse_metadata_run, Hdoc.
    + by rewrite parse_metadata_run, Hdoc.
  - unfold metadata_path. by rewrite !append_assoc.
Qed.

End Further.

(** ** The scenarios *)

Import Scenario.

(** The digests of the payloads, each computed once. *)
Lemma digest_gz_A : SHA256.hexdigest gz_A = C1.
Proof. vm_compute. reflexivity. Qed.

Lemma digest_manifest_A : SHA256.hexdigest manifest_A = C2.
Proof. vm_compute. reflexivity. Qed.





Lemma digest_artifact : SHA256.hexdigest artifact = C3.
Proof. vm_compute. reflexivity. Qed.

Lemma digest_old_artifact : SHA256.hexdigest old_artifact = old_C3.
Proof. vm_compute. reflexivity. Qed.

(** What [parse_manifest] makes of the three manifests; the platform of
    the parser is the same for every server. *)
Lemma parse_manifest_A pages :
  parse_manifest_try (P := platform pages) manifest_A
  = ({[ "5.4.0-generic" := module_A ]}, None).
Proof.
  change (parse_manifest_try (P := platform pages) manifest_A)
    with (parse_manifest_try (P := world_down) manifest_A).
  vm_compute. reflexivity.
Qed.

Lemma parse_manifest_B pages :
  parse_manifest_try (P := platform pages) manifest_B
  = ({[ "5.4.0-generic" := module_old ]}, None).
Proof.
  change (parse_manifest_try (P := platform pages) manifest_B)
    with (parse_manifest_try (P := world_down) manifest_B).
  vm_compute. reflexivity.
Qed.

Lemma parse_manifest_C pages :
  parse_manifest_try (P := platform pages) manifest_C
  = ({[ "5.3.0-generic" := module_of "5.3.0-generic" old_C3 "lime-5.3.0.ko" ]},
     Some (AttributeError "'module' has no attribute 'platform'")).
Proof.
  change (parse_manifest_try (P := platform pages) manifest_C)
    with (parse_manifest_try (P := world_down) manifest_C).
  vm_compute. reflexivity.
Qed.

(** [get_manifest] for a descriptor whose manifest the server has, intact,
    at the descriptor's location. *)
Lemma get_manifest_served pages location gz manifest size open_size s :
  let d := descriptor location (SHA256.hexdigest gz) (SHA256.hexdigest manifest)
             size open_size in
  serve pages (base +:+ "/" +:+ location)
    = {| status_code := 200; content := gz; raw := gz |} →
  gunzip gz = Ok manifest →
  get_manifest (P := platform pages) client d s =
    (Ok (parse_manifest_try (P := platform pages) manifest).1,
     after s ([Get (base +:+ "/" +:+ location);
               checksum_record (P := platform pages) gz (Some location);
               Gunzip gz;
               checksum_record (P := platform pages) manifest
                 (Some (Py.rstrip location ".gz"));
               Parse manifest]
              ++ match (parse_manifest_try (P := platform pages) manifest).2 with
                 | Some e => [Stdout e]
                 | None => []
                 end)).
Proof.
  intros d Hpage Hgz.
  apply (get_manifest_ok (P := platform pages) client d s location gz manifest).
  - reflexivity.
  - change (status_code (serve pages (base +:+ "/" +:+ location)) = 200%Z).
    by rewrite Hpage.
  - change (raw (serve pages (base +:+ "/" +:+ location)) = gz).
    by rewrite Hpage.
  - reflexivity.
  - exact Hgz.
  - reflexivity.
Qed.

(** The manifest of the scenario, at whatever location it is served. *)
Lemma get_manifest_A pages location size open_size s :
  serve pages (base +:+ "/" +:+ location)
    = {| status_code := 200; content := gz_A; raw := gz_A |} →
  get_manifest (P := platform pages) client
      (descriptor location C1 C2 size open_size) s =
    (Ok {[ "5.4.0-generic" := module_A ]},
     after s [Get (base +:+ "/" +:+ location);
              checksum_record (P := platform pages) gz_A (Some location);
              Gunzip gz_A;
              checksum_record (P := platform pages) manifest_A
                (Some (Py.rstrip location ".gz"));
              Parse manifest_A]).
Proof.
  intros Hpage. rewrite <- digest_gz_A, <- digest_manifest_A.
  rewrite (get_manifest_served pages location gz_A manifest_A size open_size s Hpage);
    [|reflexivity].
  by rewrite parse_manifest_A.
Qed.


(** The file of a module of the version 5.4.0-generic can be opened. *)
Lemma open_module pages m :
  module_version m = "5.4.0-generic" →
  open_error (Platform := platform pages) (module_filename (P := platform pages) m)
  = None.
Proof. unfold module_filename. intros ->. vm_compute. reflexivity. Qed.

(** The one entry of the index of a scenario. *)
Lemma lookup_kernel d : manifests (metadata_of d) !! Some "kernel" = Some d.
Proof. apply lookup_singleton_eq. Qed.

(** [get_metadata] on the servers that have an index. *)
Lemma get_metadata_A :
  get_metadata (P := world_A) client start =
    (Ok (metadata_of descriptor_A),
     after start [Get (base +:+ "/repodata/repomd.xml"); Parse index_A]).
Proof. vm_compute. reflexivity. Qed.



(** *** The end-to-end scenario *)



(** *** The other scenarios *)

(** C2 on real digests: the digest of [artifact] is [C3], and the
    comparison tells [C3] from its upper-case spelling. *)
Example verify_checksum_case_sensitive :
  verify_checksum (P := world_A) client artifact
      "4C3E3DD608C3A3F323E7D4C22BE6EB99D552963C73CD0ED3D6C8701CE3723357"
      (Some "lime-5.4.0.ko") start
  = (Err (RepositoryError (base +:+ "/lime-5.4.0.ko")
            (Message ("checksum verification failed, expected "
                      +:+ "4C3E3DD608C3A3F323E7D4C22BE6EB99D552963C73CD0ED3D6C8701CE3723357"
                      +:+ " got " +:+ C3))),
     after start [Log DEBUG (CalculatedChecksum C3 (Some "lime-5.4.0.ko"))]).
Proof.
  rewrite verify_checksum_run.
  change (sha256_hexdigest (Platform := world_A) artifact)
    with (SHA256.hexdigest artifact).
  rewrite digest_artifact. vm_compute. reflexivity.
Qed.

(** C3 on a damaged download: the checksum error, and no call of the
    decoder. *)
Example get_manifest_damaged :
  get_manifest (P := world_damaged) client descriptor_A start
  = (Err (checksum_error (P := world_damaged) client "damaged" C1 (Some "kernel.xml.gz")),
     after start [Get (base +:+ "/kernel.xml.gz");
                  checksum_record (P := world_damaged) "damaged" (Some "kernel.xml.gz")]).
Proof.
  rewrite get_manifest_run.
  change (requests_get (Platform := world_damaged) (manifest_path client descriptor_A))
    with {| status_code := 200; content := "damaged"; raw := "damaged" |}.
  cbn [status_code raw Z.eqb Pos.eqb negb].
  replace (String.eqb (sha256_hexdigest (Platform := world_damaged) "damaged")
             (manifest_checksum descriptor_A))
    with false by (vm_compute; reflexivity).
  reflexivity.
Qed.

(** The manifest type [debug] is not in the index of the scenario. *)
Lemma fetch_manifest_type_absent_witness :
  fetch (P := world_A) client "5.4.0-generic" "debug" start =
    (Err (KeyError "debug"),
     after (after start [Get (base +:+ "/repodata/repomd.xml"); Parse index_A])
       [Log DEBUG (ParsedMetadata (metadata_of descriptor_A))])
  ∧ is_project_error (KeyError "debug") = false
  ∧ ∃ evs,
      (fetch (P := world_A) client "5.4.0-generic" "debug" start).2 = after start evs
      ∧ ∀ u, Get u ∈ evs →
             u = metadata_path client ∨ u = metadata_sig_path client.
Proof.
  apply (fetch_manifest_type_absent (P := world_A) client "5.4.0-generic" "debug"
           start _ (metadata_of descriptor_A) get_metadata_A).
  apply lookup_singleton_ne. discriminate.
Defined.

(** The version 5.4.0-generic is in the table of the scenario, and the
    version 4.4.0-generic is not. *)
Lemma fetch_lookup_witness :
  let s2 :=
    after (after (after start [Get (base +:+ "/repodata/repomd.xml"); Parse index_A])
             [Log DEBUG (ParsedMetadata (metadata_of descriptor_A))])
      [Get (base +:+ "/" +:+ "kernel.xml.gz");
       checksum_record (P := world_A) gz_A (Some "kernel.xml.gz");
       Gunzip gz_A;
       checksum_record (P := world_A) manifest_A (Some "kernel.xml");
       Parse manifest_A] in
  fetch (P := world_A) client "5.4.0-generic" "kernel" start
    = fetch_module (P := world_A) client module_A
        (after s2 [Log DEBUG (FoundModule module_A)])
  ∧ fetch (P := world_A) client "4.4.0-generic" "kernel" start
    = (Err (KernelModuleNotFoundError "4.4.0-generic" base), s2).
Proof.
  intros s2.
  assert (Hmanifest :
    get_manifest (P := world_A) client descriptor_A
      (after (after start [Get (base +:+ "/repodata/repomd.xml"); Parse index_A])
         [Log DEBUG (ParsedMetadata (metadata_of descriptor_A))])
    = (Ok {[ "5.4.0-generic" := module_A ]}, s2)).
  { apply (get_manifest_A pages_A "kernel.xml.gz" 362 360). reflexivity. }
  split.
  - apply (proj1 (fetch_lookup (P := world_A) client "5.4.0-generic" "kernel"
                    start _ s2 (metadata_of descriptor_A) descriptor_A _
                    get_metadata_A (lookup_kernel descriptor_A) Hmanifest)).
    apply lookup_singleton_eq.
  - apply (proj2 (fetch_lookup (P := world_A) client "4.4.0-generic" "kernel"
                    start _ s2 (metadata_of descriptor_A) descriptor_A _
                    get_metadata_A (lookup_kernel descriptor_A) Hmanifest)).
    apply lookup_singleton_ne. discriminate.
Defined.

(** The server is down: every request is answered 404. *)
Lemma get_manifest_status_not_200_witness :
  get_manifest (P := world_down) client descriptor_A start
  = (Err (UnboundLocalError "gz_manifest"),
     after start [Get (manifest_path client descriptor_A)]).
Proof.
  apply (get_manifest_status_not_200 (P := world_down) client descriptor_A start).
  discriminate.
Defined.

(** The manifest whose second module has no [platform]: the first module
    is in the table, the second is not, and the caller is told nothing. *)
Lemma parse_manifest_swallows_witness :
  parse_manifest (P := world_down) client manifest_C start
  = (Ok (parse_manifest_try (P := world_down) manifest_C).1,
     after start
       [Parse manifest_C;
        Stdout (AttributeError "'module' has no attribute 'platform'")]).
Proof.
  apply (parse_manifest_swallows (P := world_down) client manifest_C start).
  unfold world_down. by rewrite parse_manifest_C.
Defined.

Example parse_manifest_table_C :
  (parse_manifest_try (P := world_down) manifest_C).1 !! "5.4.0-generic" = None
  ∧ contains_module (P := world_down) manifest_C
      (module_of "5.3.0-generic" old_C3 "lime-5.3.0.ko").
Proof.
  split.
  - unfold world_down. rewrite parse_manifest_C. apply lookup_singleton_ne.
    discriminate.
  - exists (Elem None [] [modules_C] ""), modules_C,
      (module_entry "5.3.0-generic" old_C3 "lime-5.3.0.ko").
    split; [vm_compute; reflexivity|].
    split; [vm_compute; reflexivity|].
    split; [apply elem_of_cons; by left|].
    vm_compute. reflexivity.
Qed.


(** C9 at the location debug.gz, which ends with the suffix: the label of
    the second verification is [debu], not [debug]. *)
Theorem get_manifest_label_debug_gz :
  Py.endswith "debug.gz" ".gz" = true
  ∧ Py.rstrip "debug.gz" ".gz" = "debu"
  ∧ get_manifest (P := world_debug) client (descriptor "debug.gz" C1 C2 362 360) start
    = (Ok {[ "5.4.0-generic" := module_A ]},
       after start [Get (base +:+ "/" +:+ "debug.gz");
                    checksum_record (P := world_debug) gz_A (Some "debug.gz");
                    Gunzip gz_A;
                    checksum_record (P := world_debug) manifest_A (Some "debu");
                    Parse manifest_A]).
Proof.
  split; [reflexivity|]. split; [reflexivity|].
  apply (get_manifest_A pages_debug "debug.gz" 362 360). reflexivity.
Qed.

(** The server has the older build in the place of the module. *)
Lemma fetch_module_failure_leaves_file_witness :
  ∃ s',
    fetch_module (P := world_old) client module_A start =
      (Err (checksum_error (P := world_old) client old_artifact C3
              (Some "lime-5.4.0.ko")), s')
    ∧ fs s' !! filename_A = Some old_artifact
    ∧ trace s' =
        trace start ++
        [Log INFO (Downloading (base +:+ "/lime-5.4.0.ko") filename_A);
         Get (base +:+ "/lime-5.4.0.ko");
         Write filename_A old_artifact;
         Read filename_A;
         checksum_record (P := world_old) old_artifact (Some "lime-5.4.0.ko")].
Proof.
  pose proof (fetch_module_failure_leaves_file (P := world_old) client module_A
                start) as H.
  cbv zeta in H. destruct H as [Hraises Hfile].
  destruct (proj2 Hraises) as [s' Hrun].
  { split; [by apply (open_module pages_old)|].
    change (SHA256.hexdigest old_artifact ≠ C3).
    rewrite digest_old_artifact. discriminate. }
  exists s'. split; [exact Hrun|]. exact (Hfile s' Hrun).
Defined.

(** *** The scenarios of the further properties *)


Lemma digest_damaged : SHA256.hexdigest "damaged" = damaged_C1.
Proof. vm_compute. reflexivity. Qed.


(** What [fetch] answers in the end-to-end scenario, and with the older
    build in the place of the module. *)
Lemma fetch_A_run :
  ∃ s', fetch (P := world_A) client "5.4.0-generic" "kernel" start
        = (Ok filename_A, s').
Proof.
  rewrite (fetch_run (P := world_A) client _ _ _ _ _ get_metadata_A), lookup_kernel.
  unfold world_A at 1, descriptor_A, descriptor.
  rewrite (get_manifest_A pages_A "kernel.xml.gz" 362 360) by reflexivity.
  rewrite lookup_singleton_eq, fetch_module_run.
  replace (open_error (Platform := world_A) (module_filename (P := world_A) module_A))
    with (@None string) by (symmetry; by apply (open_module pages_A)).
  change (raw (requests_get (Platform := world_A) (module_url client module_A)))
    with artifact.
  change (sha256_hexdigest (Platform := world_A) artifact) with (SHA256.hexdigest artifact).
  rewrite digest_artifact.
  change (module_checksum module_A) with C3. rewrite String.eqb_refl.
  eexists. f_equal.
Qed.



(** *** The witnesses of the further properties *)

(** The server is down: the request of repomd.xml is answered 404. *)
Lemma get_metadata_status_not_200_witness :
  get_metadata (P := world_down) client start =
    (Err (RepositoryError (base +:+ "/repodata/repomd.xml")
            (Message "status code not 200: 404")),
     after start [Get (base +:+ "/repodata/repomd.xml")]).
Proof.
  apply (get_metadata_status_not_200 (P := world_down) client start).
  discriminate.
Defined.

(** The repository of the scenario has no signature file; a client built
    with [gpg_verify] asks for it. *)
Lemma get_metadata_signature_missing_witness :
  get_metadata (P := world_A) client_gpg start =
    (Err (RepositoryError (base +:+ "/repodata/repomd.xml.sig")
            (Message "status code not 200: 404")),
     after start [Get (base +:+ "/repodata/repomd.xml");
                  Get (base +:+ "/repodata/repomd.xml.sig")]).
Proof.
  apply (get_metadata_signature_missing (P := world_A) client_gpg start).
  - reflexivity.
  - vm_compute. reflexivity.
  - discriminate.
Defined.

(** A repository whose signature file holds the word [signature]. *)
Lemma get_metadata_signature_unchecked_witness :
  content (requests_get (Platform := world_signed) (metadata_sig_path client))
    = "signature"
  ∧ (get_metadata (P := world_signed) (with_gpg_verify client true) start).1
    = (get_metadata (P := world_signed) (with_gpg_verify client false) start).1.
Proof.
  split; [vm_compute; reflexivity|].
  apply (get_metadata_signature_unchecked (P := world_signed) client start).
  vm_compute. reflexivity.
Defined.

(** The table of the manifest that lists the version twice. *)
Lemma parse_manifest_table_sound_witness :
  module_version module_old = "5.4.0-generic"
  ∧ contains_module (P := world_B) manifest_B module_old.
Proof.
  apply (parse_manifest_table_sound (P := world_B) manifest_B "5.4.0-generic"
           module_old).
  unfold world_B. rewrite parse_manifest_B. apply lookup_singleton_eq.
Defined.

(** The children of the manifest [manifest_C], and one more after the
    child that has no [platform]. *)
Lemma parse_modules_stops_witness :
  let l1 := [module_entry "5.3.0-generic" old_C3 "lime-5.3.0.ko"] in
  let l2 := [module_entry "5.4.0-generic" C3 "lime-5.4.0.ko"] in
  parse_modules (P := world_down) (l1 ++ entry_no_platform :: l2) ∅
    = ((parse_modules (P := world_down) l1 ∅).1,
       Some (AttributeError "'module' has no attribute 'platform'"))
  ∧ (parse_modules (P := world_down) l1 ∅).2 = None.
Proof.
  intros l1 l2.
  apply (parse_modules_stops (P := world_down) l1 l2 entry_no_platform ∅).
  - intros x Hx. apply list_elem_of_singleton in Hx as ->.
    eexists. vm_compute. reflexivity.
  - vm_compute. reflexivity.
Defined.

(** The children of the manifest [manifest_B]: the version 5.4.0-generic
    twice, the older build last. *)
Lemma parse_modules_last_wins_witness :
  (parse_modules (P := world_down)
     ([module_entry "5.4.0-generic" C3 "lime-5.4.0.ko"]
      ++ module_entry "5.4.0-generic" old_C3 "lime-5.4.0.ko" :: []) ∅).1
    !! "5.4.0-generic" = Some module_old.
Proof.
  apply (parse_modules_last_wins (P := world_down)
           [module_entry "5.4.0-generic" C3 "lime-5.4.0.ko"] []
           (module_entry "5.4.0-generic" old_C3 "lime-5.4.0.ko") ∅ module_old).
  - intros x Hx. apply list_elem_of_singleton in Hx as ->.
    eexists. vm_compute. reflexivity.
  - vm_compute. reflexivity.
  - intros x m' Hx. by apply elem_of_nil in Hx.
Defined.

(** The index with two [data] elements of the type [kernel]. *)
Lemma parse_metadata_keys_witness :
  parse_metadata (P := world_down) client index_AB start
    = (Ok (metadata_of descriptor_B2), after start [Parse index_AB])
  ∧ manifest_type descriptor_B2 = Some "kernel".
Proof.
  assert (H : parse_metadata (P := world_down) client index_AB start
              = (Ok (metadata_of descriptor_B2), after start [Parse index_AB]))
    by (vm_compute; reflexivity).
  split; [exact H|].
  exact (parse_metadata_keys (P := world_down) client index_AB start _ _
           (Some "kernel") descriptor_B2 H (lookup_kernel descriptor_B2)).
Defined.


(** The end-to-end scenario. *)
Lemma fetch_returns_verified_witness :
  ∃ s',
    fetch (P := world_A) client "5.4.0-generic" "kernel" start = (Ok filename_A, s')
    ∧ ∃ md descriptor manifest module,
        (get_metadata (P := world_A) client start).1 = Ok md
        ∧ manifests md !! Some "kernel" = Some descriptor
        ∧ sha256_hexdigest (Platform := world_A)
            (raw (requests_get (Platform := world_A) (manifest_path client descriptor)))
          = manifest_checksum descriptor
        ∧ gzip_read (Platform := world_A)
            (raw (requests_get (Platform := world_A) (manifest_path client descriptor)))
          = Ok manifest
        ∧ sha256_hexdigest (Platform := world_A) manifest
          = manifest_open_checksum descriptor
        ∧ (parse_manifest_try (P := world_A) manifest).1 !! "5.4.0-generic"
          = Some module
        ∧ filename_A
          = "lime-" +:+ utc_isoformat (Platform := world_A) (time_time (Platform := world_A))
            +:+ "-" +:+ "5.4.0-generic" +:+ ".ko"
        ∧ fs s' !! filename_A
          = Some (raw (requests_get (Platform := world_A) (module_url client module)))
        ∧ sha256_hexdigest (Platform := world_A)
            (raw (requests_get (Platform := world_A) (module_url client module)))
          = module_checksum module.
Proof.
  destruct fetch_A_run as [s' H]. exists s'. split; [exact H|].
  exact (fetch_returns_verified (P := world_A) client "5.4.0-generic" "kernel"
           start s' filename_A H).
Defined.

(** The end-to-end scenario leaves a file of another name alone. *)
Lemma fetch_writes_one_file_witness :
  fs (fetch (P := world_A) client "5.4.0-generic" "kernel" start).2 !! "notes.txt"
  = fs start !! "notes.txt".
Proof.
  apply (fetch_writes_one_file (P := world_A) client "5.4.0-generic" "kernel" start
           "notes.txt").
  intros H. vm_compute in H. discriminate.
Defined.


(** The location kernel.xml.gz of the scenario: the label of the second
    verification is kernel.xml. *)
Lemma get_manifest_label_stem_witness :
  ∃ evs,
    trace (get_manifest (P := world_A) client descriptor_A start).2 =
      trace start ++ [Get (base +:+ "/kernel.xml.gz");
                      checksum_record (P := world_A) gz_A (Some "kernel.xml.gz");
                      Gunzip gz_A;
                      checksum_record (P := world_A) manifest_A (Some "kernel.xml")]
                  ++ evs.
Proof.
  apply (get_manifest_label_stem (P := world_A) client descriptor_A start
           "kernel.xml" manifest_A).
  - reflexivity.
  - intros c Hc. injection Hc as <-. reflexivity.
  - vm_compute. reflexivity.
  - exact digest_gz_A.
  - vm_compute. reflexivity.
Defined.

(** A payload that is not gzip data, with the checksum the index declares
    for it. *)
Lemma get_manifest_decoder_error_witness :
  get_manifest (P := world_damaged) client descriptor_damaged start =
    (Err (IOError "Not a gzipped file"),
     after start [Get (base +:+ "/kernel.xml.gz");
                  checksum_record (P := world_damaged) "damaged" (Some "kernel.xml.gz");
                  Gunzip "damaged"]).
Proof.
  apply (get_manifest_decoder_error (P := world_damaged) client descriptor_damaged
           start (IOError "Not a gzipped file")).
  - vm_compute. reflexivity.
  - exact digest_damaged.
  - vm_compute. reflexivity.
Defined.

(** The server answers the manifest where the index should be: the
    document has no [metadata] element. *)
Lemma get_metadata_document_error_witness :
  (get_metadata (P := world_swapped) client start).1
  = Err (RepositoryError (base +:+ "/repodata")
           (Cause (AttributeError "'None' has no attribute 'metadata'"))).
Proof.
  apply (get_metadata_document_error (P := world_swapped) client start).
  - vm_compute. reflexivity.
  - discriminate.
  - vm_compute. reflexivity.
Defined.
